(** * Bank management system: ledger core and credential store

    A shallow embedding of [scripts/models.py] and [scripts/services.py]
    (the classes the Streamlit front end in [main.py] drives), together with
    the properties of the ledger stated in the specification.
    [scripts/bank_system.py] and [scripts/auth_system.py] hold an older copy
    of the same classes, with the same statements in [deposit], [withdraw],
    [get_transaction_history], [create_customer], [create_account],
    [transfer_funds], [login], [update_user_status] and [delete_user]; the
    definitions of these name both places.  Where the two copies differ
    (loading: the dataclasses of the older copy are rebuilt from the items
    of the dictionary as keyword arguments), the embedding follows models.py
    and services.py.

    Conventions of the embedding.
    - Money.  The source stores amounts and balances in Python floats; here
      they are exact integers ([Z], an amount in minor units).  Rounding is
      outside the model; comparisons, additions and subtractions are the
      ones the source writes, and the properties of amounts below state
      what one such operation gives or how two amounts compare, not that
      sums cancel or regroup.
    - Exceptions.  A method that may [raise] returns a [result] together
      with the state it leaves behind, so that what a failed call has
      changed is visible; the exception carries the message of the source.
      Failures of the file system are not modelled.
    - Environment.  [uuid.uuid4()] and [datetime.now().isoformat()] are
      inputs of the operation that calls them, one argument per call in the
      body; a loader hands one clock reading to every object it rebuilds.
    - Objects.  The dictionaries [_accounts], [_customers] and [_users] are
      finite maps from keys to object states.  A method that mutates an
      object found through a key rewrites the entry under that key, one
      source statement at a time, so two names bound to the same key
      (aliases of one object) see each other's writes.  A finite map lists
      its values in the order of its keys, a Python dictionary in the order
      of insertion; no property below depends on that order.
    - Persistence.  The JSON file written by [save_data] is a component of
      the service state, holding the document last written. *)

From Stdlib Require Import ZArith String Ascii List Lia Sorted Permutation.
From stdpp Require Import base option list gmap strings pretty.

Import ListNotations.
Open Scope string_scope.

(** ** Python values used by the code *)

Inductive exn : Type :=
| ValueError (msg : string)
| KeyError (key : string)
| TypeError (msg : string)
| AttributeError (msg : string).

Inductive result (A : Type) : Type :=
| Ok (a : A)
| Raise (e : exn).

Arguments Ok {A} a.
Arguments Raise {A} e.

Definition bind {A B : Type} (r : result A) (k : A -> result B) : result B :=
  match r with
  | Ok a => k a
  | Raise e => Raise e
  end.

Notation "'let!' x ':=' r 'in' k" := (bind r (fun x => k))
  (at level 10, x name, r at level 100, k at level 200).

Fixpoint mapM {A B : Type} (f : A -> result B) (l : list A) : result (list B) :=
  match l with
  | [] => Ok []
  | x :: xs => let! y := f x in let! ys := mapM f xs in Ok (y :: ys)
  end.

(** The value of a JSON document, which is also the shape of the
    dictionaries built by [to_dict]: [None] is [JNull], a [dict] keeps its
    items in order. *)
#[warnings="-register-all"]
Inductive json : Type :=
| JNull
| JBool (b : bool)
| JNum (z : Z)
| JStr (s : string)
| JArr (items : list json)
| JObj (items : list (string * json)).

(** [data.get(key)]: the first item under [key], if any. *)
Fixpoint dict_get (key : string) (items : list (string * json)) : option json :=
  match items with
  | [] => None
  | (k, v) :: rest => if String.eqb k key then Some v else dict_get key rest
  end.

(** [data[key]] raises [KeyError] on a missing key. *)
Definition dict_item (key : string) (items : list (string * json)) : result json :=
  match dict_get key items with
  | Some v => Ok v
  | None => Raise (KeyError key)
  end.

(** Typed readers.  Python carries any value along; the embedding is typed,
    so a field of another shape than the one [to_dict] writes is refused. *)
Definition as_str (key : string) (v : json) : result string :=
  match v with
  | JStr s => Ok s
  | _ => Raise (TypeError key)
  end.

Definition as_num (key : string) (v : json) : result Z :=
  match v with
  | JNum z => Ok z
  | _ => Raise (TypeError key)
  end.

Definition as_bool (key : string) (v : json) : result bool :=
  match v with
  | JBool b => Ok b
  | _ => Raise (TypeError key)
  end.

Definition as_opt_str (key : string) (v : option json) : result (option string) :=
  match v with
  | None | Some JNull => Ok None
  | Some (JStr s) => Ok (Some s)
  | Some _ => Raise (TypeError key)
  end.

Definition as_dict (key : string) (v : json) : result (list (string * json)) :=
  match v with
  | JObj items => Ok items
  | _ => Raise (TypeError key)
  end.

(** [data.get(key, [])] where a list is expected. *)
Definition dict_get_list (key : string) (items : list (string * json))
    : result (list json) :=
  match dict_get key items with
  | None => Ok []
  | Some (JArr l) => Ok l
  | Some _ => Raise (TypeError key)
  end.

Definition opt_str_json (o : option string) : json :=
  match o with
  | Some s => JStr s
  | None => JNull
  end.

(** [x or default] for an optional string: [None] and the empty string are
    falsy. *)
Definition str_or (x : option string) (default : string) : string :=
  match x with
  | Some s => if String.eqb s "" then default else s
  | None => default
  end.

(** ** models.py *)

Module Transaction.

Record t : Type := mk {
  _id : string;
  _account_id : string;
  _type : string;
  _amount : Z;
  _balance_after : Z;
  _description : string;
  _timestamp : string;
  _reference_account : option string
}.

(** [Transaction.__init__]: [timestamp or datetime.now().isoformat()]. *)
Definition init (transaction_id account_id transaction_type : string)
    (amount balance_after : Z) (description : string)
    (timestamp : option string) (reference_account : option string)
    (now : string) : t :=
  {| _id := transaction_id;
     _account_id := account_id;
     _type := transaction_type;
     _amount := amount;
     _balance_after := balance_after;
     _description := description;
     _timestamp := str_or timestamp now;
     _reference_account := reference_account |}.

Definition to_dict (self : t) : json :=
  JObj [ ("transaction_id", JStr (_id self));
         ("account_id", JStr (_account_id self));
         ("transaction_type", JStr (_type self));
         ("amount", JNum (_amount self));
         ("balance_after", JNum (_balance_after self));
         ("description", JStr (_description self));
         ("timestamp", JStr (_timestamp self));
         ("reference_account", opt_str_json (_reference_account self)) ].

Definition from_dict (data : json) (now : string) : result t :=
  let! d := as_dict "transaction" data in
  let! transaction_id := bind (dict_item "transaction_id" d) (as_str "transaction_id") in
  let! account_id := bind (dict_item "account_id" d) (as_str "account_id") in
  let! transaction_type := bind (dict_item "transaction_type" d) (as_str "transaction_type") in
  let! amount := bind (dict_item "amount" d) (as_num "amount") in
  let! balance_after := bind (dict_item "balance_after" d) (as_num "balance_after") in
  let! description := bind (dict_item "description" d) (as_str "description") in
  let! timestamp := as_opt_str "timestamp" (dict_get "timestamp" d) in
  let! reference_account := as_opt_str "reference_account" (dict_get "reference_account" d) in
  Ok (init transaction_id account_id transaction_type amount balance_after
           description timestamp reference_account now).

End Transaction.

Module Account.

Record t : Type := mk {
  _id : string;
  _customer_id : string;
  _type : string;
  _balance : Z;
  _status : string;
  _created_date : string;
  _transactions : list Transaction.t
}.

(** [Account.__init__]: the transaction list starts empty. *)
Definition init (account_id customer_id account_type : string) (balance : Z)
    (status : string) (created_date : option string) (now : string) : t :=
  {| _id := account_id;
     _customer_id := customer_id;
     _type := account_type;
     _balance := balance;
     _status := status;
     _created_date := str_or created_date now;
     _transactions := [] |}.

Definition set_balance (self : t) (b : Z) : t :=
  {| _id := _id self;
     _customer_id := _customer_id self;
     _type := _type self;
     _balance := b;
     _status := _status self;
     _created_date := _created_date self;
     _transactions := _transactions self |}.

Definition set_transactions (self : t) (l : list Transaction.t) : t :=
  {| _id := _id self;
     _customer_id := _customer_id self;
     _type := _type self;
     _balance := _balance self;
     _status := _status self;
     _created_date := _created_date self;
     _transactions := l |}.

(** [add_transaction]: [self._transactions.append(transaction)]. *)
Definition add_transaction (transaction : Transaction.t) (self : t) : t :=
  set_transactions self (_transactions self ++ [transaction]).

(** [Account.deposit] (models.py and bank_system.py).  Returns the outcome
    and the account after the call. *)
Definition deposit (self : t) (amount : Z) (description : string)
    (uuid now : string) : result Transaction.t * t :=
  if (amount <=? 0)%Z
  then (Raise (ValueError "Deposit amount must be positive"), self)
  else
    let self1 := set_balance self (_balance self + amount) in
    let transaction :=
      Transaction.init uuid (_id self1) "deposit" amount (_balance self1)
                       description None None now in
    (Ok transaction, add_transaction transaction self1).

(** [Account.withdraw] (models.py and bank_system.py). *)
Definition withdraw (self : t) (amount : Z) (description : string)
    (uuid now : string) : result Transaction.t * t :=
  if (amount <=? 0)%Z
  then (Raise (ValueError "Withdrawal amount must be positive"), self)
  else if (amount >? _balance self)%Z
  then (Raise (ValueError "Insufficient funds"), self)
  else
    let self1 := set_balance self (_balance self - amount) in
    let transaction :=
      Transaction.init uuid (_id self1) "withdraw" amount (_balance self1)
                       description None None now in
    (Ok transaction, add_transaction transaction self1).

(** [sorted(..., key=lambda x: x.created_at, reverse=True)].  Python's sort
    is stable, also under [reverse=True]: of two transactions with equal
    keys the one earlier in the list stays first.  The stable sort of a
    list is unique, so it is given here by insertion, the head of the list
    being inserted last and placed before the first element whose key is
    not greater. *)
Fixpoint insert_desc (x : Transaction.t) (l : list Transaction.t)
    : list Transaction.t :=
  match l with
  | [] => [x]
  | y :: ys =>
      if String.leb (Transaction._timestamp y) (Transaction._timestamp x)
      then x :: y :: ys
      else y :: insert_desc x ys
  end.

Definition sorted_desc (l : list Transaction.t) : list Transaction.t :=
  foldr insert_desc [] l.

(** The slice [l[:n]]: a negative [n] counts from the end. *)
Definition slice_to (l : list Transaction.t) (n : Z) : list Transaction.t :=
  if (n <? 0)%Z then take (length l - Z.to_nat (- n)) l
  else take (Z.to_nat n) l.

(** [get_transaction_history]:
    [sorted_transactions[:limit] if limit else sorted_transactions].
    [None] and [0] are both falsy. *)
Definition get_transaction_history (self : t) (limit : option Z)
    : list Transaction.t :=
  let sorted_transactions := sorted_desc (_transactions self) in
  match limit with
  | Some n => if (n =? 0)%Z then sorted_transactions
              else slice_to sorted_transactions n
  | None => sorted_transactions
  end.

Definition to_dict (self : t) : json :=
  JObj [ ("account_id", JStr (_id self));
         ("customer_id", JStr (_customer_id self));
         ("account_type", JStr (_type self));
         ("balance", JNum (_balance self));
         ("status", JStr (_status self));
         ("created_date", JStr (_created_date self));
         ("transactions", JArr (map Transaction.to_dict (_transactions self))) ].

Definition from_dict (data : json) (now : string) : result t :=
  let! d := as_dict "account" data in
  let! account_id := bind (dict_item "account_id" d) (as_str "account_id") in
  let! customer_id := bind (dict_item "customer_id" d) (as_str "customer_id") in
  let! account_type := bind (dict_item "account_type" d) (as_str "account_type") in
  let! balance := bind (dict_item "balance" d) (as_num "balance") in
  let! status := bind (dict_item "status" d) (as_str "status") in
  let! created_date :=
    bind (dict_item "created_date" d)
         (fun v => as_opt_str "created_date" (Some v)) in
  let account := init account_id customer_id account_type balance status
                      created_date now in
  let! items := dict_get_list "transactions" d in
  let! transactions := mapM (fun item => Transaction.from_dict item now) items in
  Ok (set_transactions account transactions).

(** [set_status]: [status in valid_statuses], else [ValueError] with the
    list printed in the message. *)
Definition set_status (self : t) (status : string) : result unit * t :=
  let valid_statuses := ["active"; "inactive"; "frozen"] in
  if existsb (String.eqb status) valid_statuses
  then (Ok tt,
        {| _id := _id self;
           _customer_id := _customer_id self;
           _type := _type self;
           _balance := _balance self;
           _status := status;
           _created_date := _created_date self;
           _transactions := _transactions self |})
  else (Raise (ValueError
                 "Invalid status. Must be one of: ['active', 'inactive', 'frozen']"),
        self).

End Account.

Module Customer.

(** [Person] and [Customer]: the fields written to the document.  The
    private list [_accounts] holds references to the customer's account
    objects for [get_total_balance]; it is no field of the document, no
    operation below reads it, and it is left out. *)
Record t : Type := mk {
  _id : string;
  _name : string;
  _email : string;
  _phone : string;
  _address : string;
  _created_date : string
}.

(** [Customer.__init__] through [Person.__init__]:
    [created_date or datetime.now().isoformat()]. *)
Definition init (customer_id name email phone address : string)
    (created_date : option string) (now : string) : t :=
  {| _id := customer_id;
     _name := name;
     _email := email;
     _phone := phone;
     _address := address;
     _created_date := str_or created_date now |}.

Definition to_dict (self : t) : json :=
  JObj [ ("customer_id", JStr (_id self));
         ("name", JStr (_name self));
         ("email", JStr (_email self));
         ("phone", JStr (_phone self));
         ("address", JStr (_address self));
         ("created_date", JStr (_created_date self)) ].

Definition from_dict (data : json) (now : string) : result t :=
  let! d := as_dict "customer" data in
  let! customer_id := bind (dict_item "customer_id" d) (as_str "customer_id") in
  let! name := bind (dict_item "name" d) (as_str "name") in
  let! email := bind (dict_item "email" d) (as_str "email") in
  let! phone := bind (dict_item "phone" d) (as_str "phone") in
  let! address := bind (dict_item "address" d) (as_str "address") in
  let! created_date := as_opt_str "created_date" (dict_get "created_date" d) in
  Ok (init customer_id name email phone address created_date now).

End Customer.

Module User.

Record t : Type := mk {
  _id : string;
  _username : string;
  _email : string;
  _password_hash : string;
  _role : string;
  _name : string;
  _phone : string;
  _is_active : bool;
  _created_date : string;
  _last_login : option string;
  _customer_id : option string
}.

(** [User.__init__]. *)
Definition init (user_id username email password_hash role full_name phone : string)
    (is_active : bool) (created_date last_login customer_id : option string)
    (now : string) : t :=
  {| _id := user_id;
     _username := username;
     _email := email;
     _password_hash := password_hash;
     _role := role;
     _name := full_name;
     _phone := phone;
     _is_active := is_active;
     _created_date := str_or created_date now;
     _last_login := last_login;
     _customer_id := customer_id |}.

(** [set_active_status]. *)
Definition set_active_status (status : bool) (self : t) : t :=
  {| _id := _id self;
     _username := _username self;
     _email := _email self;
     _password_hash := _password_hash self;
     _role := _role self;
     _name := _name self;
     _phone := _phone self;
     _is_active := status;
     _created_date := _created_date self;
     _last_login := _last_login self;
     _customer_id := _customer_id self |}.

(** [update_last_login]: [self._last_login = datetime.now().isoformat()]. *)
Definition update_last_login (now : string) (self : t) : t :=
  {| _id := _id self;
     _username := _username self;
     _email := _email self;
     _password_hash := _password_hash self;
     _role := _role self;
     _name := _name self;
     _phone := _phone self;
     _is_active := _is_active self;
     _created_date := _created_date self;
     _last_login := Some now;
     _customer_id := _customer_id self |}.

Definition to_dict (self : t) : json :=
  JObj [ ("user_id", JStr (_id self));
         ("username", JStr (_username self));
         ("email", JStr (_email self));
         ("password_hash", JStr (_password_hash self));
         ("role", JStr (_role self));
         ("full_name", JStr (_name self));
         ("phone", JStr (_phone self));
         ("is_active", JBool (_is_active self));
         ("created_date", JStr (_created_date self));
         ("last_login", opt_str_json (_last_login self));
         ("customer_id", opt_str_json (_customer_id self)) ].

(** [data.get('is_active', True)]. *)
Definition get_is_active (d : list (string * json)) : result bool :=
  match dict_get "is_active" d with
  | None => Ok true
  | Some v => as_bool "is_active" v
  end.

Definition from_dict (data : json) (now : string) : result t :=
  let! d := as_dict "user" data in
  let! user_id := bind (dict_item "user_id" d) (as_str "user_id") in
  let! username := bind (dict_item "username" d) (as_str "username") in
  let! email := bind (dict_item "email" d) (as_str "email") in
  let! password_hash := bind (dict_item "password_hash" d) (as_str "password_hash") in
  let! role := bind (dict_item "role" d) (as_str "role") in
  let! full_name := bind (dict_item "full_name" d) (as_str "full_name") in
  let! phone := bind (dict_item "phone" d) (as_str "phone") in
  let! is_active := get_is_active d in
  let! created_date := as_opt_str "created_date" (dict_get "created_date" d) in
  let! last_login := as_opt_str "last_login" (dict_get "last_login" d) in
  let! customer_id := as_opt_str "customer_id" (dict_get "customer_id" d) in
  Ok (init user_id username email password_hash role full_name phone is_active
           created_date last_login customer_id now).

Section Hashing.

(** [hashlib.sha256(password.encode()).hexdigest()], a library function. *)
Variable sha256_hexdigest : string -> string.

Definition _hash_password (password : string) : string :=
  sha256_hexdigest password.

Definition check_password (self : t) (password : string) : bool :=
  String.eqb (_password_hash self) (_hash_password password).

(** [User.create_user]: a new active user with a hashed password. *)
Definition create_user (username email password role full_name phone : string)
    (customer_id : option string) (uuid now : string) : t :=
  init uuid username email (_hash_password password) role full_name phone
       true None None customer_id now.

(** [change_password]. *)
Definition change_password (self : t) (new_password : string) : t :=
  {| _id := _id self;
     _username := _username self;
     _email := _email self;
     _password_hash := _hash_password new_password;
     _role := _role self;
     _name := _name self;
     _phone := _phone self;
     _is_active := _is_active self;
     _created_date := _created_date self;
     _last_login := _last_login self;
     _customer_id := _customer_id self |}.

End Hashing.

End User.

(** ** services.py *)

Module JSONDataService.

(** The file named by [_filename]: [None] when it is missing or does not
    hold JSON, in which case [load_data] answers the empty dictionary. *)
Definition load_data (file : option json) : json :=
  match file with
  | Some data => data
  | None => JObj []
  end.

Definition save_data (data : json) : option json := Some data.

End JSONDataService.

(** The loops of [_load_users] and [_load_data]:
    [for item in items: x = from_dict(item); store[key(x)] = x]. *)
Fixpoint load_each {A : Type} (from_dict : json -> result A) (key : A -> string)
    (items : list json) (store : gmap string A) : result (gmap string A) :=
  match items with
  | [] => Ok store
  | item :: rest =>
      let! x := from_dict item in
      load_each from_dict key rest (<[key x := x]> store)
  end.

(** [store.values()], in the iteration order of the finite map. *)
Definition values {A : Type} (store : gmap string A) : list A :=
  (map_to_list store).*2.

Module UserAuthService.

Record t : Type := mk {
  _users : gmap string User.t;
  _data_file : option json
}.

Definition set_users (self : t) (users : gmap string User.t) : t :=
  {| _users := users; _data_file := _data_file self |}.

(** [_save_users]. *)
Definition _save_users (self : t) : t :=
  {| _users := _users self;
     _data_file :=
       JSONDataService.save_data
         (JObj [("users", JArr (map User.to_dict (values (_users self))))]) |}.

(** [_load_users]. *)
Definition _load_users (self : t) (now : string) : result t :=
  let! d := as_dict "users.json" (JSONDataService.load_data (_data_file self)) in
  let! items := dict_get_list "users" d in
  let! users := load_each (fun item => User.from_dict item now) User._username
                          items (_users self) in
  Ok (set_users self users).

(** [get_user]. *)
Definition get_user (self : t) (username : string) : option User.t :=
  _users self !! username.

(** [update_user_status] (services.py; auth_system.py assigns the field
    directly). *)
Definition update_user_status (self : t) (username : string) (is_active : bool)
    : bool * t :=
  match _users self !! username with
  | Some _ =>
      let self1 :=
        set_users self (alter (User.set_active_status is_active) username (_users self)) in
      (true, _save_users self1)
  | None => (false, self)
  end.

(** [delete_user]: [if username in self._users and username != "admin"]. *)
Definition delete_user (self : t) (username : string) : bool * t :=
  match _users self !! username with
  | Some _ =>
      if negb (String.eqb username "admin")
      then (true, _save_users (set_users self (delete username (_users self))))
      else (false, self)
  | None => (false, self)
  end.

(** [get_all_users]. *)
Definition get_all_users (self : t) : list User.t := values (_users self).

(** [get_users_by_role] (auth_system.py). *)
Definition get_users_by_role (self : t) (role : string) : list User.t :=
  List.filter (fun user => String.eqb (User._role user) role) (values (_users self)).

(** The loop of [register_user] over the existing users:
    the first user with the same username or the same email ends it. *)
Fixpoint first_conflict (username email : string) (users : list User.t)
    : option string :=
  match users with
  | [] => None
  | user :: rest =>
      if String.eqb (User._username user) username then Some "Username already exists"
      else if String.eqb (User._email user) email then Some "Email already exists"
      else first_conflict username email rest
  end.

Section Hashing.

Variable sha256_hexdigest : string -> string.

(** [register_user] (services.py and auth_system.py).  [all([...])] asks
    for five non-empty strings. *)
Definition register_user (self : t) (username email password role full_name phone : string)
    (customer_id : option string) (uuid now : string)
    : (bool * string * option User.t) * t :=
  if existsb (fun field => String.eqb field "") [username; email; password; full_name; phone]
  then ((false, "All fields are required", None), self)
  else if (String.length password <? 6)%nat
  then ((false, "Password must be at least 6 characters long", None), self)
  else
    match first_conflict username email (values (_users self)) with
    | Some message => ((false, message, None), self)
    | None =>
        let new_user :=
          User.create_user sha256_hexdigest username email password role full_name
                           phone customer_id uuid now in
        ((true, "User registered successfully", Some new_user),
         _save_users (set_users self (<[username := new_user]> (_users self))))
    end.

(** [_create_default_admin]. *)
Definition _create_default_admin (self : t) (uuid now : string) : t :=
  let admin_exists :=
    existsb (fun user => String.eqb (User._role user) "admin") (values (_users self)) in
  if negb admin_exists then
    let admin_user :=
      User.create_user sha256_hexdigest "admin" "admin@bank.com" "admin123" "admin"
                       "System Administrator" "1234567890" None uuid now in
    _save_users (set_users self (<["admin" := admin_user]> (_users self)))
  else self.

(** [UserAuthService.__init__] on the file [auth_file]. *)
Definition init (auth_file : option json) (uuid now : string) : result t :=
  let self := {| _users := ∅; _data_file := auth_file |} in
  let! self1 := _load_users self now in
  Ok (_create_default_admin self1 uuid now).

(** [login] (services.py and auth_system.py): the triple
    [(success, message, user)] and the service after the call. *)
Definition login (self : t) (username password now : string)
    : (bool * string * option User.t) * t :=
  match _users self !! username with
  | None => ((false, "Invalid username or password", None), self)
  | Some user =>
      if negb (User._is_active user)
      then ((false, "Account is deactivated", None), self)
      else if negb (User.check_password sha256_hexdigest user password)
      then ((false, "Invalid username or password", None), self)
      else
        let self1 :=
          set_users self (alter (User.update_last_login now) username (_users self)) in
        ((true, "Login successful", _users self1 !! username), _save_users self1)
  end.

(** [AuthenticationUI._handle_password_change] (pages/auth_pages.py), on the
    user object kept in the session: the message shown, the user object and
    the service afterwards. *)
Definition _handle_password_change (self : t) (user : User.t)
    (current_password new_password confirm_new_password : string)
    : string * User.t * t :=
  if existsb (fun field => String.eqb field "")
             [current_password; new_password; confirm_new_password]
  then ("Please fill in all password fields", user, self)
  else if negb (User.check_password sha256_hexdigest user current_password)
  then ("Current password is incorrect", user, self)
  else if negb (String.eqb new_password confirm_new_password)
  then ("New passwords do not match", user, self)
  else if (String.length new_password <? 6)%nat
  then ("New password must be at least 6 characters long", user, self)
  else
    let user1 := User.change_password sha256_hexdigest user new_password in
    ("Password changed successfully!", user1,
     _save_users (set_users self (<[User._username user1 := user1]> (_users self)))).

End Hashing.

End UserAuthService.

Module BankManagementService.

Record t : Type := mk {
  _customers : gmap string Customer.t;
  _accounts : gmap string Account.t;
  _data_file : option json
}.

Definition set_customers (self : t) (customers : gmap string Customer.t) : t :=
  {| _customers := customers;
     _accounts := _accounts self;
     _data_file := _data_file self |}.

Definition set_accounts (self : t) (accounts : gmap string Account.t) : t :=
  {| _customers := _customers self;
     _accounts := accounts;
     _data_file := _data_file self |}.

(** The document built by [_save_data]. *)
Definition document (self : t) : json :=
  JObj [ ("customers", JArr (map Customer.to_dict (values (_customers self))));
         ("accounts", JArr (map Account.to_dict (values (_accounts self)))) ].

(** [_save_data] (services.py), [save_data] (bank_system.py). *)
Definition _save_data (self : t) : t :=
  {| _customers := _customers self;
     _accounts := _accounts self;
     _data_file := JSONDataService.save_data (document self) |}.

(** [_load_data]: customers first, then accounts, each stored under its own
    id. *)
Definition _load_data (self : t) (now : string) : result t :=
  let! d := as_dict "bank_data.json" (JSONDataService.load_data (_data_file self)) in
  let! customer_items := dict_get_list "customers" d in
  let! customers := load_each (fun item => Customer.from_dict item now) Customer._id
                              customer_items (_customers self) in
  let! account_items := dict_get_list "accounts" d in
  let! accounts := load_each (fun item => Account.from_dict item now) Account._id
                             account_items (_accounts self) in
  Ok (set_accounts (set_customers self customers) accounts).

(** [BankManagementService.__init__] on the file [data_file] (the
    authentication service it also builds is [UserAuthService.init]). *)
Definition init (data_file : option json) (now : string) : result t :=
  _load_data {| _customers := ∅; _accounts := ∅; _data_file := data_file |} now.

(** [create_customer] (services.py and bank_system.py): no check of any
    argument. *)
Definition create_customer (self : t) (name email phone address : string)
    (uuid now : string) : Customer.t * t :=
  let customer_id := uuid in
  let customer := Customer.init customer_id name email phone address None now in
  (customer, _save_data (set_customers self (<[customer_id := customer]> (_customers self)))).

(** [f"{n:06d}"] for a natural number: decimal digits, padded with zeros on
    the left to six characters. *)
Definition zfill6 (digits : string) : string :=
  String.concat "" (replicate (6 - String.length digits) "0") +:+ digits.

Definition account_number (n : nat) : string :=
  "ACC" +:+ zfill6 (pretty n).

(** [create_account] (services.py and bank_system.py).  The account is
    built with [balance = initial_deposit]; a positive [initial_deposit] is
    then deposited with [account.deposit].  The statement
    [self._customers[customer_id].add_account(account)] of services.py
    writes the reference list left out of [Customer.t]. *)
Definition create_account (self : t) (customer_id account_type : string)
    (initial_deposit : Z) (now uuid now_deposit : string) : result Account.t * t :=
  match _customers self !! customer_id with
  | None => (Raise (ValueError "Customer not found"), self)
  | Some _ =>
      let account_id := account_number (size (_accounts self) + 1) in
      let account0 :=
        Account.init account_id customer_id account_type initial_deposit "active"
                     None now in
      let deposited : option exn * Account.t :=
        if (initial_deposit >? 0)%Z then
          match Account.deposit account0 initial_deposit "Initial deposit"
                                uuid now_deposit with
          | (Ok _, account) => (None, account)
          | (Raise e, account) => (Some e, account)
          end
        else (None, account0) in
      match deposited with
      | (Some e, _) => (Raise e, self)
      | (None, account) =>
          (Ok account,
           _save_data (set_accounts self (<[account_id := account]> (_accounts self))))
      end
  end.

(** [get_customer], [get_account]. *)
Definition get_customer (self : t) (customer_id : string) : option Customer.t :=
  _customers self !! customer_id.

Definition get_account (self : t) (account_id : string) : option Account.t :=
  _accounts self !! account_id.

(** A statement [obj.method(...)] on the account object bound to
    [account_id]. *)
Definition on_account (account_id : string) (f : Account.t -> Account.t) (self : t) : t :=
  set_accounts self (alter f account_id (_accounts self)).

(** [transfer_funds] (services.py and bank_system.py).  Both transactions
    are built from the balances read before any update; then come, in the
    order of the source, the two balance updates and the two appends, each
    on the object its account id is bound to. *)
Definition transfer_funds (self : t) (from_account_id to_account_id : string)
    (amount : Z) (description : string)
    (uuid_out now_out uuid_in now_in : string)
    : result (Transaction.t * Transaction.t) * t :=
  match get_account self from_account_id, get_account self to_account_id with
  | Some from_account, Some to_account =>
      if (Account._balance from_account <? amount)%Z
      then (Raise (ValueError "Insufficient funds"), self)
      else
        let from_transaction :=
          Transaction.init uuid_out from_account_id "transfer_out" amount
            (Account._balance from_account - amount)
            ("Transfer to " +:+ to_account_id +:+ ": " +:+ description)
            None (Some to_account_id) now_out in
        let to_transaction :=
          Transaction.init uuid_in to_account_id "transfer_in" amount
            (Account._balance to_account + amount)
            ("Transfer from " +:+ from_account_id +:+ ": " +:+ description)
            None (Some from_account_id) now_in in
        let self1 :=
          on_account from_account_id
            (fun a => Account.set_balance a (Account._balance a - amount)) self in
        let self2 :=
          on_account to_account_id
            (fun a => Account.set_balance a (Account._balance a + amount)) self1 in
        let self3 := on_account from_account_id (Account.add_transaction from_transaction) self2 in
        let self4 := on_account to_account_id (Account.add_transaction to_transaction) self3 in
        (Ok (from_transaction, to_transaction), _save_data self4)
  | _, _ => (Raise (ValueError "One or both accounts not found"), self)
  end.

(** The deposit and withdrawal forms of [main.py]:
    [account = get_account(account_id)], then [account.deposit(...)] or
    [account.withdraw(...)] on that object, then [_save_data()] when the
    method has returned.  An unknown id gives [None], and the method call on
    it raises. *)
Definition deposit (self : t) (account_id : string) (amount : Z)
    (description uuid now : string) : result Transaction.t * t :=
  match get_account self account_id with
  | None => (Raise (AttributeError "'NoneType' object has no attribute 'deposit'"), self)
  | Some account =>
      let '(outcome, account1) := Account.deposit account amount description uuid now in
      let self1 := set_accounts self (<[account_id := account1]> (_accounts self)) in
      match outcome with
      | Ok transaction => (Ok transaction, _save_data self1)
      | Raise e => (Raise e, self1)
      end
  end.

Definition withdraw (self : t) (account_id : string) (amount : Z)
    (description uuid now : string) : result Transaction.t * t :=
  match get_account self account_id with
  | None => (Raise (AttributeError "'NoneType' object has no attribute 'withdraw'"), self)
  | Some account =>
      let '(outcome, account1) := Account.withdraw account amount description uuid now in
      let self1 := set_accounts self (<[account_id := account1]> (_accounts self)) in
      match outcome with
      | Ok transaction => (Ok transaction, _save_data self1)
      | Raise e => (Raise e, self1)
      end
  end.

(** [get_customer_accounts]. *)
Definition get_customer_accounts (self : t) (customer_id : string) : list Account.t :=
  List.filter (fun account => String.eqb (Account._customer_id account) customer_id)
              (values (_accounts self)).

(** [get_all_customers], [get_all_accounts]. *)
Definition get_all_customers (self : t) : list Customer.t := values (_customers self).

Definition get_all_accounts (self : t) : list Account.t := values (_accounts self).

End BankManagementService.

(** ** Sequences of ledger operations *)

Module Ledger.

Import BankManagementService.

Inductive op : Type :=
| Deposit (account_id : string) (amount : Z) (description uuid now : string)
| Withdraw (account_id : string) (amount : Z) (description uuid now : string)
| Transfer (from_account_id to_account_id : string) (amount : Z)
    (description uuid_out now_out uuid_in now_in : string).

Definition is_ok {A : Type} (r : result A) : bool :=
  match r with
  | Ok _ => true
  | Raise _ => false
  end.

(** One call: whether it returned, and the service afterwards. *)
Definition step (self : t) (o : op) : bool * t :=
  match o with
  | Deposit account_id amount description uuid now =>
      let r := deposit self account_id amount description uuid now in
      (is_ok (fst r), snd r)
  | Withdraw account_id amount description uuid now =>
      let r := withdraw self account_id amount description uuid now in
      (is_ok (fst r), snd r)
  | Transfer from_account_id to_account_id amount description uuid_out now_out uuid_in now_in =>
      let r := transfer_funds self from_account_id to_account_id amount description
                              uuid_out now_out uuid_in now_in in
      (is_ok (fst r), snd r)
  end.

(** The calls of [ops] one after the other, whatever their outcome. *)
Definition run (self : t) (ops : list op) : t :=
  fold_left (fun s o => snd (step s o)) ops self.

(** Whether every call of [ops] returns. *)
Fixpoint all_succeed (self : t) (ops : list op) : bool :=
  match ops with
  | [] => true
  | o :: rest => fst (step self o) && all_succeed (snd (step self o)) rest
  end.

(** The balance agrees with the transaction appended last, if there is
    one. *)
Definition balance_matches_log (a : Account.t) : bool :=
  match last (Account._transactions a) with
  | Some transaction =>
      (Account._balance a =? Transaction._balance_after transaction)%Z
  | None => true
  end.

Definition consistent (self : t) : Prop :=
  forall account_id a,
    _accounts self !! account_id = Some a -> balance_matches_log a = true.

Definition non_negative (self : t) : Prop :=
  forall account_id a,
    _accounts self !! account_id = Some a -> (0 <= Account._balance a)%Z.

(** A transfer between two different account ids; deposits and withdrawals
    qualify. *)
Definition between_distinct (o : op) : Prop :=
  match o with
  | Transfer from_account_id to_account_id _ _ _ _ _ _ => from_account_id <> to_account_id
  | _ => True
  end.

(** A transfer of a non-negative amount; deposits and withdrawals qualify. *)
Definition transfers_non_negative (o : op) : Prop :=
  match o with
  | Transfer _ _ amount _ _ _ _ _ => (0 <= amount)%Z
  | _ => True
  end.

End Ledger.

(** ** Well-formed objects and stores

    Every constructor fills an empty date with the current time, so the
    dates of an object are never empty, provided the clock does not print
    the empty string. *)

Definition transaction_dated (x : Transaction.t) : Prop :=
  Transaction._timestamp x <> "".

Definition account_dated (a : Account.t) : Prop :=
  Account._created_date a <> "" /\ Forall transaction_dated (Account._transactions a).

Definition customer_dated (c : Customer.t) : Prop :=
  Customer._created_date c <> "".

(** Every entity is stored under its own id, as every assignment to
    [_customers] and [_accounts] in the source does, and is dated. *)
Definition store_well_formed (self : BankManagementService.t) : Prop :=
  (forall k c, BankManagementService._customers self !! k = Some c ->
               Customer._id c = k /\ customer_dated c) /\
  (forall k a, BankManagementService._accounts self !! k = Some a ->
               Account._id a = k /\ account_dated a).

(** [x] may stand before [y] in a history: its timestamp is not smaller. *)
Definition newer_first (x y : Transaction.t) : Prop :=
  String.leb (Transaction._timestamp y) (Transaction._timestamp x) = true.

(** [x] was stamped strictly before [y]. *)
Definition stamped_before (x y : Transaction.t) : Prop :=
  String.ltb (Transaction._timestamp x) (Transaction._timestamp y) = true.

(** The clock readings of an operation are not empty. *)
Definition clock_prints (o : Ledger.op) : Prop :=
  match o with
  | Ledger.Deposit _ _ _ _ now | Ledger.Withdraw _ _ _ _ now => now <> ""
  | Ledger.Transfer _ _ _ _ _ now_out _ now_in => now_out <> "" /\ now_in <> ""
  end.

(** Every user is stored under its username and carries its creation
    date, as every assignment to [_users] and the constructor see to. *)
Definition users_well_formed (self : UserAuthService.t) : Prop :=
  forall k u, UserAuthService._users self !! k = Some u ->
              User._username u = k /\ User._created_date u <> "".

(** [any(user.role == 'admin' for user in self._users.values())]. *)
Definition admin_exists (self : UserAuthService.t) : bool :=
  existsb (fun user => String.eqb (User._role user) "admin")
          (values (UserAuthService._users self)).

(** [a'] is [a] with a longer log: the same id, owner, type, status and
    creation date, and the transactions of [a] first. *)
Definition log_extended (a a' : Account.t) : Prop :=
  Account._id a' = Account._id a /\
  Account._customer_id a' = Account._customer_id a /\
  Account._type a' = Account._type a /\
  Account._status a' = Account._status a /\
  Account._created_date a' = Account._created_date a /\
  Account._transactions a `prefix_of` Account._transactions a'.

(** The same account ids on both sides, each account with a longer log. *)
Definition logs_extended (accounts accounts' : gmap string Account.t) : Prop :=
  forall k,
    match accounts !! k, accounts' !! k with
    | Some a, Some a' => log_extended a a'
    | None, None => True
    | _, _ => False
    end.

(** The account ids in use are the ones [create_account] computes for the
    first, second, ... account: what a service is in that has opened all its
    accounts itself. *)
Definition numbered_in_sequence (accounts : gmap string Account.t) : Prop :=
  forall k,
    is_Some (accounts !! k) <->
    exists i, 1 <= i <= size accounts /\ k = BankManagementService.account_number i.

(** ** Scenarios *)

Module Scenario.

Import BankManagementService.

Definition fresh_bank : t :=
  {| _customers := ∅; _accounts := ∅; _data_file := None |}.

Definition with_alice : t :=
  snd (create_customer fresh_bank "Alice" "alice@example.com" "555-0100"
                       "1 Main Street" "c-0001" "2024-03-01T09:00:00").

(** Account A opened with 50 and account B opened with 0. *)
Definition opened_A : result Account.t * t :=
  create_account with_alice "c-0001" "savings" 50
                 "2024-03-01T09:01:00" "t-0001" "2024-03-01T09:01:00.000250".

Definition opened_B : result Account.t * t :=
  create_account (snd opened_A) "c-0001" "checking" 0
                 "2024-03-01T09:02:00" "t-0002" "2024-03-01T09:02:00.000250".

(** The two accounts as [create_account] leaves them. *)
Definition account_A : Account.t :=
  {| Account._id := "ACC000001";
     Account._customer_id := "c-0001";
     Account._type := "savings";
     Account._balance := 100;
     Account._status := "active";
     Account._created_date := "2024-03-01T09:01:00";
     Account._transactions :=
       [ {| Transaction._id := "t-0001";
            Transaction._account_id := "ACC000001";
            Transaction._type := "deposit";
            Transaction._amount := 50;
            Transaction._balance_after := 100;
            Transaction._description := "Initial deposit";
            Transaction._timestamp := "2024-03-01T09:01:00.000250";
            Transaction._reference_account := None |} ] |}.

Definition account_B : Account.t :=
  {| Account._id := "ACC000002";
     Account._customer_id := "c-0001";
     Account._type := "checking";
     Account._balance := 0;
     Account._status := "active";
     Account._created_date := "2024-03-01T09:02:00";
     Account._transactions := [] |}.

Definition transfer_A_B : result (Transaction.t * Transaction.t) * t :=
  transfer_funds (snd opened_B) "ACC000001" "ACC000002" 50 "Transfer"
                 "t-0003" "2024-03-01T09:03:00" "t-0004" "2024-03-01T09:03:00.000100".

(** One savings account opened with 0, then a deposit of 100 and a
    withdrawal of 30. *)
Definition savings_opened : t :=
  snd (create_account with_alice "c-0001" "savings" 0
                      "2024-03-01T09:01:00" "t-0001" "2024-03-01T09:01:00.000250").

Definition savings_used : t :=
  Ledger.run savings_opened
    [ Ledger.Deposit "ACC000001" 100 "Deposit" "t-0011" "2024-03-01T10:00:00";
      Ledger.Withdraw "ACC000001" 30 "Withdrawal" "t-0012" "2024-03-01T11:00:00" ].

Definition self_transfer : Ledger.op :=
  Ledger.Transfer "ACC000001" "ACC000001" 30 "Transfer"
                  "t-0021" "2024-03-01T12:00:00" "t-0022" "2024-03-01T12:00:00.000100".

(** Two accounts opened with 0. *)
Definition two_empty_accounts : t :=
  snd (create_account savings_opened "c-0001" "checking" 0
                      "2024-03-01T09:02:00" "t-0002" "2024-03-01T09:02:00.000250").

Definition negative_transfer : Ledger.op :=
  Ledger.Transfer "ACC000001" "ACC000002" (-10) "Transfer"
                  "t-0031" "2024-03-01T12:00:00" "t-0032" "2024-03-01T12:00:00.000100".

(** A stand-in for the digest in concrete runs. *)
Definition toy_digest (password : string) : string := "sha256:" +:+ password.

Definition bootstrap : UserAuthService.t :=
  match UserAuthService.init toy_digest None "u-0001" "2024-03-01T08:00:00" with
  | Ok self => self
  | Raise _ => {| UserAuthService._users := ∅; UserAuthService._data_file := None |}
  end.

Definition with_bob : UserAuthService.t :=
  snd (UserAuthService.register_user toy_digest bootstrap "bob" "bob@example.com"
         "secret1" "employee" "Bob Builder" "555-0101" None
         "u-0002" "2024-03-01T08:30:00").

Definition bob_deactivated : UserAuthService.t :=
  snd (UserAuthService.update_user_status with_bob "bob" false).

(** An account opened with an initial deposit of -10, which [create_account]
    takes as the balance. *)
Definition overdrawn : t :=
  snd (create_account with_alice "c-0001" "savings" (-10)
                      "2024-03-01T09:01:00" "t-0001" "2024-03-01T09:01:00.000250").

(** A store as a hand-edited file gives it: one account, kept under the id
    "ACC000002". *)
Definition sparse_bank : t :=
  set_accounts with_alice {[ "ACC000002" := account_B ]}.

(** A day on accounts A and B: a deposit, a transfer that goes through, a
    withdrawal that is refused, a transfer that is refused, a withdrawal. *)
Definition busy_day : list Ledger.op :=
  [ Ledger.Deposit "ACC000002" 20 "Deposit" "t-0051" "2024-03-02T09:00:00";
    Ledger.Transfer "ACC000001" "ACC000002" 30 "Rent" "t-0052" "2024-03-02T09:10:00"
                    "t-0053" "2024-03-02T09:10:00.000100";
    Ledger.Withdraw "ACC000002" 500 "Withdrawal" "t-0054" "2024-03-02T09:20:00";
    Ledger.Transfer "ACC000002" "ACC000001" 75 "Refund" "t-0055" "2024-03-02T09:30:00"
                    "t-0056" "2024-03-02T09:30:00.000100";
    Ledger.Withdraw "ACC000001" 70 "Withdrawal" "t-0057" "2024-03-02T09:40:00" ].

(** Bob, logged in, changes his password. *)
Definition bob_session : User.t :=
  {| User._id := "u-0002";
     User._username := "bob";
     User._email := "bob@example.com";
     User._password_hash := toy_digest "secret1";
     User._role := "employee";
     User._name := "Bob Builder";
     User._phone := "555-0101";
     User._is_active := true;
     User._created_date := "2024-03-01T08:30:00";
     User._last_login := Some "2024-03-01T15:00:00";
     User._customer_id := None |}.

Definition bob_changed : string * User.t * UserAuthService.t :=
  UserAuthService._handle_password_change toy_digest with_bob bob_session
    "secret1" "s3cret-2" "s3cret-2".

Definition carol_registered
    : (bool * string * option User.t) * UserAuthService.t :=
  UserAuthService.register_user toy_digest with_bob "carol" "carol@example.com"
    "hunter22" "customer" "Carol Client" "555-0102" (Some "c-0001")
    "u-0003" "2024-03-01T08:45:00".

End Scenario.

(** * Properties *)

(** ** Account methods *)

Lemma set_accounts_same (self : BankManagementService.t) (account_id : string)
    (a : Account.t) :
  BankManagementService._accounts self !! account_id = Some a ->
  BankManagementService.set_accounts self
    (<[account_id := a]> (BankManagementService._accounts self)) = self.
Proof.
  intros Hget. destruct self as [cs accs file]. simpl in *.
  unfold BankManagementService.set_accounts. simpl.
  by rewrite insert_id.
Qed.

Lemma withdraw_guard_order (a : Account.t) (amount : Z) (description uuid now : string) :
  (Account._balance a < amount)%Z ->
  snd (Account.withdraw a amount description uuid now) = a /\
  Ledger.is_ok (fst (Account.withdraw a amount description uuid now)) = false.
Proof.
  intros Hlt. unfold Account.withdraw.
  destruct (amount <=? 0)%Z; [done |].
  destruct (amount >? Account._balance a)%Z eqn:Hgt; [done |].
  rewrite Z.gtb_ltb in Hgt. apply Z.ltb_ge in Hgt. lia.
Qed.

(** C7, as the code has it.  A withdrawal of more than the balance fails
    and changes nothing: the account, hence its balance and its transaction
    list, is the one before the call, and so is the whole service when the
    call goes through the withdrawal form.  The amount is checked before the
    balance: the call raises "Insufficient funds" when the amount is
    positive, which it is whenever the balance is not negative, and
    "Withdrawal amount must be positive" when the amount is zero or less. *)
Theorem withdraw_above_balance_fails_unchanged
    (self : BankManagementService.t) (account_id : string) (a : Account.t)
    (amount : Z) (description uuid now : string) :
  BankManagementService._accounts self !! account_id = Some a ->
  (Account._balance a < amount)%Z ->
  exists e,
    Account.withdraw a amount description uuid now = (Raise e, a) /\
    BankManagementService.withdraw self account_id amount description uuid now
      = (Raise e, self) /\
    ((0 < amount)%Z -> e = ValueError "Insufficient funds") /\
    ((amount <= 0)%Z -> e = ValueError "Withdrawal amount must be positive") /\
    ((0 <= Account._balance a)%Z -> e = ValueError "Insufficient funds").
Proof.
  intros Hget Hlt.
  assert (Hform : forall e,
            Account.withdraw a amount description uuid now = (Raise e, a) ->
            BankManagementService.withdraw self account_id amount description uuid now
              = (Raise e, self)).
  { intros e Hw.
    unfold BankManagementService.withdraw, BankManagementService.get_account.
    rewrite Hget, Hw. by rewrite set_accounts_same. }
  unfold Account.withdraw in *.
  destruct (amount <=? 0)%Z eqn:Hle.
  - apply Z.leb_le in Hle. eexists. split; [reflexivity |].
    split; [by apply Hform |]. repeat split; [lia | lia].
  - apply Z.leb_gt in Hle.
    destruct (amount >? Account._balance a)%Z eqn:Hgt.
    + eexists. split; [reflexivity |]. split; [by apply Hform |].
      repeat split. lia.
    + rewrite Z.gtb_ltb in Hgt. apply Z.ltb_ge in Hgt. lia.
Qed.

Lemma withdraw_above_balance_fails_unchanged_witness :
  BankManagementService.withdraw Scenario.savings_used "ACC000001" 71
      "Withdrawal" "t-0013" "2024-03-01T12:00:00"
    = (Raise (ValueError "Insufficient funds"), Scenario.savings_used).
Proof.
  destruct (withdraw_above_balance_fails_unchanged Scenario.savings_used "ACC000001"
              (Account.add_transaction
                 (Transaction.init "t-0012" "ACC000001" "withdraw" 30 70 "Withdrawal"
                                   None None "2024-03-01T11:00:00")
                 (Account.add_transaction
                    (Transaction.init "t-0011" "ACC000001" "deposit" 100 100 "Deposit"
                                      None None "2024-03-01T10:00:00")
                    (Account.set_balance
                       (Account.init "ACC000001" "c-0001" "savings" 0 "active" None
                                     "2024-03-01T09:01:00") 70)))
              71 "Withdrawal" "t-0013" "2024-03-01T12:00:00")
    as (e & _ & Hform & Hpositive & _).
  - vm_compute; reflexivity.
  - vm_compute; reflexivity.
  - rewrite Hform. by rewrite Hpositive.
Defined.

(** C7, as stated, fails.  The account of [Scenario.overdrawn] holds -10.
    The amount -5 is strictly greater than that balance, and the withdrawal
    is refused with "Withdrawal amount must be positive", not with
    "Insufficient funds". *)
Lemma withdraw_above_negative_balance_other_error :
  (exists a,
     BankManagementService._accounts Scenario.overdrawn !! "ACC000001" = Some a /\
     Account._balance a = (-10)%Z /\
     (Account._balance a < -5)%Z /\
     Account.withdraw a (-5) "Withdrawal" "t-0014" "2024-03-01T12:30:00"
       = (Raise (ValueError "Withdrawal amount must be positive"), a)) /\
  BankManagementService.withdraw Scenario.overdrawn "ACC000001" (-5)
      "Withdrawal" "t-0014" "2024-03-01T12:30:00"
    = (Raise (ValueError "Withdrawal amount must be positive"), Scenario.overdrawn) /\
  ~ (forall (a : Account.t) (amount : Z) (description uuid now : string),
       (Account._balance a < amount)%Z ->
       fst (Account.withdraw a amount description uuid now)
         = Raise (ValueError "Insufficient funds")).
Proof.
  split; [| split].
  - eexists. split; [vm_compute; reflexivity |].
    split; [reflexivity |]. split; [reflexivity | vm_compute; reflexivity].
  - vm_compute; reflexivity.
  - intros Hall.
    specialize (Hall (Account.init "ACC000001" "c-0001" "savings" (-10) "active" None
                                   "2024-03-01T09:01:00")
                     (-5)%Z "Withdrawal" "t-0014" "2024-03-01T12:30:00").
    cbn in Hall. specialize (Hall ltac:(lia)). discriminate Hall.
Qed.

(** ** Opening an account *)

Lemma create_account_positive_deposit
    (self : BankManagementService.t) (customer_id account_type : string)
    (initial_deposit : Z) (now uuid now_deposit : string) :
  is_Some (BankManagementService._customers self !! customer_id) ->
  (0 < initial_deposit)%Z ->
  exists a,
    fst (BankManagementService.create_account self customer_id account_type
           initial_deposit now uuid now_deposit) = Ok a /\
    Account._balance a = (initial_deposit + initial_deposit)%Z /\
    Account._transactions a =
      [ {| Transaction._id := uuid;
           Transaction._account_id := Account._id a;
           Transaction._type := "deposit";
           Transaction._amount := initial_deposit;
           Transaction._balance_after := (initial_deposit + initial_deposit)%Z;
           Transaction._description := "Initial deposit";
           Transaction._timestamp := now_deposit;
           Transaction._reference_account := None |} ].
Proof.
  intros [c Hc] Hpos. unfold BankManagementService.create_account.
  rewrite Hc.
  assert (Hgt : (initial_deposit >? 0)%Z = true) by (rewrite Z.gtb_ltb; by apply Z.ltb_lt).
  assert (Hle : (initial_deposit <=? 0)%Z = false) by (apply Z.leb_gt; lia).
  rewrite Hgt. unfold Account.deposit. rewrite Hle. simpl.
  eexists. split; [reflexivity |]. simpl. done.
Qed.

(** C3.  Opening an account with an initial deposit of 50 gives a balance
    of 100: the account is built with the deposit as its balance and the
    same amount is then deposited on top.  Its log holds the one deposit
    "Initial deposit" of amount 50 with balance_after 100.  After opening a
    second account with 0 and transferring 50 from the first to the second,
    the balances are 50 and 50. *)
Theorem initial_deposit_counted_twice :
  (exists a,
     fst Scenario.opened_A = Ok a /\
     Account._balance a = 100%Z /\
     map (fun x => (Transaction._type x, Transaction._amount x,
                    Transaction._description x, Transaction._balance_after x))
         (Account._transactions a)
       = [("deposit", 50%Z, "Initial deposit", 100%Z)]) /\
  Ledger.is_ok (fst Scenario.transfer_A_B) = true /\
  Account._balance <$> (BankManagementService._accounts (snd Scenario.transfer_A_B)
                          !! "ACC000001") = Some 50%Z /\
  Account._balance <$> (BankManagementService._accounts (snd Scenario.transfer_A_B)
                          !! "ACC000002") = Some 50%Z.
Proof.
  split.
  - eexists. split; [vm_compute; reflexivity |].
    split; vm_compute; reflexivity.
  - repeat split; vm_compute; reflexivity.
Qed.

(** ** Transfers *)

Ltac alter_lookup :=
  repeat first
    [ rewrite lookup_alter_eq
    | rewrite lookup_alter_ne by congruence ].

(** C2.  A transfer between two different existing accounts, the source
    holding at least the amount, returns the pair of new transactions; the
    source account is the old one with its balance lowered by the amount and
    the transfer_out appended, the destination the old one with its balance
    raised by the amount and the transfer_in appended; each transaction
    names the other account and records the new balance of its own; every
    other account and every customer is untouched. *)
Theorem transfer_funds_between_distinct_accounts
    (self : BankManagementService.t) (from_id to_id : string)
    (from_account to_account : Account.t) (amount : Z)
    (description uuid_out now_out uuid_in now_in : string) :
  from_id <> to_id ->
  BankManagementService._accounts self !! from_id = Some from_account ->
  BankManagementService._accounts self !! to_id = Some to_account ->
  (amount <= Account._balance from_account)%Z ->
  let r := BankManagementService.transfer_funds self from_id to_id amount description
             uuid_out now_out uuid_in now_in in
  exists out_tx in_tx from_account' to_account',
    fst r = Ok (out_tx, in_tx) /\
    BankManagementService._accounts (snd r) !! from_id = Some from_account' /\
    BankManagementService._accounts (snd r) !! to_id = Some to_account' /\
    Account._balance from_account' = (Account._balance from_account - amount)%Z /\
    Account._balance to_account' = (Account._balance to_account + amount)%Z /\
    Account._transactions from_account'
      = (Account._transactions from_account ++ [out_tx])%list /\
    Account._transactions to_account'
      = (Account._transactions to_account ++ [in_tx])%list /\
    from_account' =
      Account.set_transactions
        (Account.set_balance from_account (Account._balance from_account'))
        (Account._transactions from_account') /\
    to_account' =
      Account.set_transactions
        (Account.set_balance to_account (Account._balance to_account'))
        (Account._transactions to_account') /\
    (Transaction._account_id out_tx = from_id /\
     Transaction._type out_tx = "transfer_out" /\
     Transaction._amount out_tx = amount /\
     Transaction._reference_account out_tx = Some to_id /\
     Transaction._balance_after out_tx = Account._balance from_account') /\
    (Transaction._account_id in_tx = to_id /\
     Transaction._type in_tx = "transfer_in" /\
     Transaction._amount in_tx = amount /\
     Transaction._reference_account in_tx = Some from_id /\
     Transaction._balance_after in_tx = Account._balance to_account') /\
    (forall k, k <> from_id -> k <> to_id ->
       BankManagementService._accounts (snd r) !! k
         = BankManagementService._accounts self !! k) /\
    BankManagementService._customers (snd r) = BankManagementService._customers self.
Proof.
  intros Hne Hfrom Hto Hfunds r. subst r.
  unfold BankManagementService.transfer_funds, BankManagementService.get_account.
  rewrite Hfrom, Hto.
  assert (Hchk : (Account._balance from_account <? amount)%Z = false)
    by (apply Z.ltb_ge; lia).
  rewrite Hchk. cbn [fst snd].
  unfold BankManagementService.on_account, BankManagementService._save_data,
    BankManagementService.set_accounts. cbn [BankManagementService._accounts
    BankManagementService._customers].
  do 4 eexists. split; [reflexivity |].
  split; [alter_lookup; rewrite Hfrom; reflexivity |].
  split; [alter_lookup; rewrite Hto; reflexivity |].
  cbn. repeat split.
  intros k Hk1 Hk2. by alter_lookup.
Qed.

Lemma transfer_funds_between_distinct_accounts_witness :
  exists out_tx in_tx from_account' to_account',
    fst Scenario.transfer_A_B = Ok (out_tx, in_tx) /\
    BankManagementService._accounts (snd Scenario.transfer_A_B) !! "ACC000001"
      = Some from_account' /\
    BankManagementService._accounts (snd Scenario.transfer_A_B) !! "ACC000002"
      = Some to_account' /\
    Account._balance from_account' = (100 - 50)%Z /\
    Account._balance to_account' = (0 + 50)%Z /\
    Transaction._reference_account out_tx = Some "ACC000002" /\
    Transaction._reference_account in_tx = Some "ACC000001".
Proof.
  destruct (transfer_funds_between_distinct_accounts (snd Scenario.opened_B)
               "ACC000001" "ACC000002" Scenario.account_A Scenario.account_B
               50 "Transfer"
               "t-0003" "2024-03-01T09:03:00" "t-0004" "2024-03-01T09:03:00.000100")
    as (out_tx & in_tx & fa & ta & Hr & Hfa & Hta & Hbf & Hbt & _ & _ & _ & _
        & Hout & Hin & _).
  - discriminate.
  - vm_compute; reflexivity.
  - vm_compute; reflexivity.
  - vm_compute; discriminate.
  - exists out_tx, in_tx, fa, ta.
    destruct Hout as (_ & _ & _ & Hout & _). destruct Hin as (_ & _ & _ & Hin & _).
    repeat split; assumption.
Defined.

(** ** Ledger invariants

    Deposits, withdrawals and transfers between two different accounts keep
    the balance equal to the last balance_after; deposits, withdrawals and
    transfers of non-negative amounts keep balances non-negative. *)

Lemma balance_matches_log_snoc (a : Account.t) (x : Transaction.t) (b : Z) :
  Transaction._balance_after x = b ->
  Ledger.balance_matches_log
    (Account.add_transaction x (Account.set_balance a b)) = true.
Proof.
  intros Hb. unfold Ledger.balance_matches_log, Account.add_transaction. simpl.
  rewrite last_snoc. rewrite Hb. apply Z.eqb_refl.
Qed.

Lemma deposit_keeps_agreement (a : Account.t) (amount : Z) (description uuid now : string) :
  Ledger.balance_matches_log a = true ->
  Ledger.balance_matches_log (snd (Account.deposit a amount description uuid now)) = true.
Proof.
  intros Ha. unfold Account.deposit.
  destruct (amount <=? 0)%Z; [exact Ha |].
  simpl. by apply balance_matches_log_snoc.
Qed.

Lemma withdraw_keeps_agreement (a : Account.t) (amount : Z) (description uuid now : string) :
  Ledger.balance_matches_log a = true ->
  Ledger.balance_matches_log (snd (Account.withdraw a amount description uuid now)) = true.
Proof.
  intros Ha. unfold Account.withdraw.
  destruct (amount <=? 0)%Z; [exact Ha |].
  destruct (amount >? Account._balance a)%Z; [exact Ha |].
  simpl. by apply balance_matches_log_snoc.
Qed.

Lemma deposit_keeps_non_negative (a : Account.t) (amount : Z) (description uuid now : string) :
  (0 <= Account._balance a)%Z ->
  (0 <= Account._balance (snd (Account.deposit a amount description uuid now)))%Z.
Proof.
  intros Ha. unfold Account.deposit.
  destruct (amount <=? 0)%Z eqn:Hle; [exact Ha |].
  apply Z.leb_gt in Hle. simpl. lia.
Qed.

Lemma withdraw_keeps_non_negative (a : Account.t) (amount : Z) (description uuid now : string) :
  (0 <= Account._balance a)%Z ->
  (0 <= Account._balance (snd (Account.withdraw a amount description uuid now)))%Z.
Proof.
  intros Ha. unfold Account.withdraw.
  destruct (amount <=? 0)%Z; [exact Ha |].
  destruct (amount >? Account._balance a)%Z eqn:Hgt; [exact Ha |].
  rewrite Z.gtb_ltb in Hgt. apply Z.ltb_ge in Hgt. simpl. lia.
Qed.

(** The accounts after a call of the deposit or withdrawal form: the entry
    of the account is whatever the method left, the others are as before. *)
Lemma form_accounts (self : BankManagementService.t) (account_id : string)
    (call : Account.t -> result Transaction.t * Account.t)
    (r : result Transaction.t * BankManagementService.t) (e : exn) :
  r = match BankManagementService.get_account self account_id with
      | None => (Raise e, self)
      | Some account =>
          let '(outcome, account1) := call account in
          let self1 :=
            BankManagementService.set_accounts self
              (<[account_id := account1]> (BankManagementService._accounts self)) in
          match outcome with
          | Ok transaction => (Ok transaction, BankManagementService._save_data self1)
          | Raise e' => (Raise e', self1)
          end
      end ->
  BankManagementService._accounts (snd r)
    = match BankManagementService._accounts self !! account_id with
      | Some account =>
          <[account_id := snd (call account)]> (BankManagementService._accounts self)
      | None => BankManagementService._accounts self
      end.
Proof.
  intros ->. unfold BankManagementService.get_account.
  destruct (BankManagementService._accounts self !! account_id) as [account |]; [| done].
  destruct (call account) as [[transaction | e'] account1]; reflexivity.
Qed.

Lemma form_keeps (P : string -> Account.t -> Prop) (self : BankManagementService.t)
    (account_id : string) (call : Account.t -> result Transaction.t * Account.t)
    (accounts' : gmap string Account.t) :
  (forall k a, P k a -> P k (snd (call a))) ->
  accounts' = match BankManagementService._accounts self !! account_id with
              | Some account =>
                  <[account_id := snd (call account)]> (BankManagementService._accounts self)
              | None => BankManagementService._accounts self
              end ->
  (forall k a, BankManagementService._accounts self !! k = Some a -> P k a) ->
  forall k a, accounts' !! k = Some a -> P k a.
Proof.
  intros Hcall -> Hall k a.
  destruct (BankManagementService._accounts self !! account_id) as [account |] eqn:Hacc;
    [| by apply Hall].
  rewrite lookup_insert_Some. intros [[<- <-] | [_ Hk]]; [| by eapply Hall].
  apply Hcall. by eapply Hall.
Qed.

Lemma transfer_accounts (self : BankManagementService.t) (from_id to_id : string)
    (amount : Z) (description uuid_out now_out uuid_in now_in : string) :
  let r := BankManagementService.transfer_funds self from_id to_id amount description
             uuid_out now_out uuid_in now_in in
  (Ledger.is_ok (fst r) = false /\ snd r = self) \/
  (exists from_account to_account out_tx in_tx,
     BankManagementService._accounts self !! from_id = Some from_account /\
     BankManagementService._accounts self !! to_id = Some to_account /\
     (amount <= Account._balance from_account)%Z /\
     BankManagementService._accounts (snd r) =
       alter (Account.add_transaction in_tx) to_id
         (alter (Account.add_transaction out_tx) from_id
            (alter (fun a => Account.set_balance a (Account._balance a + amount)) to_id
               (alter (fun a => Account.set_balance a (Account._balance a - amount)) from_id
                  (BankManagementService._accounts self)))) /\
     BankManagementService._customers (snd r) = BankManagementService._customers self /\
     Transaction._balance_after out_tx = (Account._balance from_account - amount)%Z /\
     Transaction._balance_after in_tx = (Account._balance to_account + amount)%Z /\
     Transaction._timestamp out_tx = now_out /\
     Transaction._timestamp in_tx = now_in).
Proof.
  intros r. subst r.
  unfold BankManagementService.transfer_funds, BankManagementService.get_account.
  destruct (BankManagementService._accounts self !! from_id) as [fa |] eqn:Hfa;
    [| left; done].
  destruct (BankManagementService._accounts self !! to_id) as [ta |] eqn:Hta;
    [| left; done].
  destruct (Account._balance fa <? amount)%Z eqn:Hchk; [left; done |].
  apply Z.ltb_ge in Hchk. right.
  do 4 eexists. split; [reflexivity |]. split; [reflexivity |]. split; [lia |].
  split; [reflexivity |]. repeat split.
Qed.

(** A transfer from an account to itself, in general: the balance is
    lowered and then raised by the amount, and the transaction appended last
    records the balance read before both updates plus the amount. *)
Lemma self_transfer_outcome (self : BankManagementService.t) (account_id : string)
    (a : Account.t) (amount : Z) (description uuid_out now_out uuid_in now_in : string) :
  BankManagementService._accounts self !! account_id = Some a ->
  (amount <= Account._balance a)%Z ->
  let r := BankManagementService.transfer_funds self account_id account_id amount
             description uuid_out now_out uuid_in now_in in
  Ledger.is_ok (fst r) = true /\
  exists a' x,
    BankManagementService._accounts (snd r) !! account_id = Some a' /\
    last (Account._transactions a') = Some x /\
    Account._balance a' = (Account._balance a - amount + amount)%Z /\
    Transaction._balance_after x = (Account._balance a + amount)%Z.
Proof.
  intros Ha Hfunds r. subst r.
  unfold BankManagementService.transfer_funds, BankManagementService.get_account.
  rewrite Ha.
  assert (Hchk : (Account._balance a <? amount)%Z = false) by (apply Z.ltb_ge; lia).
  rewrite Hchk. cbn [fst snd Ledger.is_ok].
  split; [reflexivity |].
  unfold BankManagementService.on_account, BankManagementService._save_data,
    BankManagementService.set_accounts.
  cbn [BankManagementService._accounts].
  do 2 eexists. split; [alter_lookup; rewrite Ha; reflexivity |].
  cbn [Account.add_transaction Account.set_transactions Account._transactions
       Account.set_balance Account._balance].
  split; [apply last_snoc |].
  split; reflexivity.
Qed.

Lemma step_keeps_consistent (self : BankManagementService.t) (o : Ledger.op) :
  Ledger.between_distinct o ->
  Ledger.consistent self ->
  Ledger.consistent (snd (Ledger.step self o)).
Proof.
  intros Hdistinct Hself.
  destruct o as [account_id amount description uuid now
                | account_id amount description uuid now
                | from_id to_id amount description uuid_out now_out uuid_in now_in];
    cbn [Ledger.step snd].
  - unfold Ledger.consistent.
    eapply (form_keeps (fun _ a => Ledger.balance_matches_log a = true) self account_id);
      [| eapply form_accounts; reflexivity | exact Hself].
    intros _ a. apply deposit_keeps_agreement.
  - unfold Ledger.consistent.
    eapply (form_keeps (fun _ a => Ledger.balance_matches_log a = true) self account_id);
      [| eapply form_accounts; reflexivity | exact Hself].
    intros _ a. apply withdraw_keeps_agreement.
  - simpl in Hdistinct. unfold Ledger.consistent.
    destruct (transfer_accounts self from_id to_id amount description
                uuid_out now_out uuid_in now_in)
      as [[_ ->] | (fa & ta & out_tx & in_tx & Hfa & Hta & _ & -> & _ & Hout & Hin & _)];
      [exact Hself |].
    intros k a.
    destruct (decide (k = to_id)) as [-> | Hk_to];
      [| destruct (decide (k = from_id)) as [-> | Hk_from]];
      alter_lookup.
    + rewrite Hta. cbn. intros [= <-]. by apply balance_matches_log_snoc.
    + rewrite Hfa. cbn. intros [= <-]. by apply balance_matches_log_snoc.
    + apply Hself.
Qed.

(** X7.  Starting from a service in which every balance equals the
    balance_after of the last transaction of its account, any sequence of
    deposits, withdrawals and transfers between two different account ids,
    whether the calls return or raise, ends in such a service. *)
Lemma run_keeps_consistent (ops : list Ledger.op) (self : BankManagementService.t) :
  Forall Ledger.between_distinct ops ->
  Ledger.consistent self ->
  Ledger.consistent (Ledger.run self ops).
Proof.
  revert self. induction ops as [| o ops IH]; intros self Hops Hself; [exact Hself |].
  inversion Hops as [| ? ? Ho Hrest]; subst.
  cbn. apply IH; [exact Hrest |]. by apply step_keeps_consistent.
Qed.

Lemma step_keeps_non_negative (self : BankManagementService.t) (o : Ledger.op) :
  Ledger.transfers_non_negative o ->
  Ledger.non_negative self ->
  Ledger.non_negative (snd (Ledger.step self o)).
Proof.
  intros Hamount Hself.
  destruct o as [account_id amount description uuid now
                | account_id amount description uuid now
                | from_id to_id amount description uuid_out now_out uuid_in now_in];
    cbn [Ledger.step snd].
  - unfold Ledger.non_negative.
    eapply (form_keeps (fun _ a => (0 <= Account._balance a)%Z) self account_id);
      [| eapply form_accounts; reflexivity | exact Hself].
    intros _ a. apply deposit_keeps_non_negative.
  - unfold Ledger.non_negative.
    eapply (form_keeps (fun _ a => (0 <= Account._balance a)%Z) self account_id);
      [| eapply form_accounts; reflexivity | exact Hself].
    intros _ a. apply withdraw_keeps_non_negative.
  - simpl in Hamount. unfold Ledger.non_negative.
    destruct (transfer_accounts self from_id to_id amount description
                uuid_out now_out uuid_in now_in)
      as [[_ ->] | (fa & ta & out_tx & in_tx & Hfa & Hta & Hfunds & -> & _)];
      [exact Hself |].
    pose proof (Hself _ _ Hta) as Hta0.
    intros k a. rewrite !lookup_alter.
    repeat case_decide; subst;
      rewrite ?Hfa, ?Hta; cbn; try (intros [= <-]; cbn; lia).
    apply Hself.
Qed.

(** X8.  Starting from a service without negative balances, any sequence
    of deposits, withdrawals and transfers of non-negative amounts (from an
    account to itself included), whether the calls return or raise, ends in
    a service without negative balances. *)
Lemma run_keeps_non_negative (ops : list Ledger.op) (self : BankManagementService.t) :
  Forall Ledger.transfers_non_negative ops ->
  Ledger.non_negative self ->
  Ledger.non_negative (Ledger.run self ops).
Proof.
  revert self. induction ops as [| o ops IH]; intros self Hops Hself; [exact Hself |].
  inversion Hops as [| ? ? Ho Hrest]; subst.
  cbn. apply IH; [exact Hrest |]. by apply step_keeps_non_negative.
Qed.

(** *** Where the invariants break *)

(** C1.  A transfer from an account to itself returns, yet leaves the
    balance where it was (70) while the transaction appended last, the
    transfer_in, records the balance read before the update plus the amount
    (100): the balance no longer equals the last balance_after. *)
Theorem self_transfer_breaks_balance_log_agreement :
  Ledger.all_succeed Scenario.savings_used [Scenario.self_transfer] = true /\
  exists a x,
    BankManagementService._accounts
      (Ledger.run Scenario.savings_used [Scenario.self_transfer]) !! "ACC000001" = Some a /\
    last (Account._transactions a) = Some x /\
    Account._balance a = 70%Z /\
    Transaction._balance_after x = 100%Z /\
    Ledger.balance_matches_log a = false.
Proof.
  split; [vm_compute; reflexivity |].
  eexists. eexists. split; [vm_compute; reflexivity |].
  split; [vm_compute; reflexivity |].
  repeat split; vm_compute; reflexivity.
Qed.

Lemma elem_of_values {A : Type} (store : gmap string A) (k : string) (x : A) :
  store !! k = Some x -> x ∈ values store.
Proof.
  intros Hk. unfold values. apply list_elem_of_fmap.
  exists (k, x). split; [done |]. by apply elem_of_map_to_list.
Qed.

Lemma non_negative_by_values (self : BankManagementService.t) :
  Forall (fun a => (0 <= Account._balance a)%Z)
         (values (BankManagementService._accounts self)) ->
  Ledger.non_negative self.
Proof.
  intros Hall k a Hk. rewrite Forall_forall in Hall.
  apply Hall. by eapply elem_of_values.
Qed.

(** C4.  A transfer of a negative amount passes the only check
    ([from_account.balance < amount] is false) and moves money the other
    way: from two accounts holding 0, a transfer of -10 leaves the
    destination at -10. *)
Theorem negative_transfer_makes_balance_negative :
  Ledger.non_negative Scenario.two_empty_accounts /\
  Ledger.all_succeed Scenario.two_empty_accounts [Scenario.negative_transfer] = true /\
  Account._balance <$>
    (BankManagementService._accounts
       (Ledger.run Scenario.two_empty_accounts [Scenario.negative_transfer])
       !! "ACC000002") = Some (-10)%Z /\
  ~ Ledger.non_negative
      (Ledger.run Scenario.two_empty_accounts [Scenario.negative_transfer]).
Proof.
  assert (Hafter :
    Account._balance <$>
      (BankManagementService._accounts
         (Ledger.run Scenario.two_empty_accounts [Scenario.negative_transfer])
         !! "ACC000002") = Some (-10)%Z) by (vm_compute; reflexivity).
  split; [| split; [vm_compute; reflexivity | split; [exact Hafter |]]].
  - apply non_negative_by_values. vm_compute. repeat constructor; discriminate.
  - intros Hnn.
    destruct (BankManagementService._accounts
                (Ledger.run Scenario.two_empty_accounts [Scenario.negative_transfer])
                !! "ACC000002") as [a |] eqn:Ha; [| discriminate].
    specialize (Hnn _ _ Ha). simpl in Hafter. injection Hafter as Hb. lia.
Qed.

(** ** Transaction history

    The history is the transaction list reordered, newest first; a positive
    limit [n] cuts it to the first [n] entries, so to [min n total] of
    them. *)

Lemma leb_total (s1 s2 : string) : String.leb s1 s2 = false -> String.leb s2 s1 = true.
Proof.
  unfold String.leb. rewrite (String.compare_antisym s2 s1).
  destruct (String.compare s1 s2); cbn; congruence.
Qed.

Lemma insert_desc_perm (x : Transaction.t) (l : list Transaction.t) :
  Permutation (Account.insert_desc x l) (x :: l).
Proof.
  induction l as [| y l IH]; cbn; [reflexivity |].
  destruct (String.leb _ _); [reflexivity |].
  rewrite IH. apply perm_swap.
Qed.

Lemma sorted_desc_perm (l : list Transaction.t) :
  Permutation (Account.sorted_desc l) l.
Proof.
  induction l as [| x l IH]; cbn; [reflexivity |].
  rewrite insert_desc_perm. by constructor.
Qed.

Lemma insert_desc_hd (x y : Transaction.t) (l : list Transaction.t) :
  newer_first y x -> HdRel newer_first y l -> HdRel newer_first y (Account.insert_desc x l).
Proof.
  intros Hyx Hl. destruct l as [| z l]; cbn; [by constructor |].
  destruct (String.leb _ _); [by constructor |].
  inversion Hl; subst. by constructor.
Qed.

Lemma insert_desc_sorted (x : Transaction.t) (l : list Transaction.t) :
  Sorted newer_first l -> Sorted newer_first (Account.insert_desc x l).
Proof.
  induction 1 as [| y l Hsorted IH Hhd]; cbn; [by repeat constructor |].
  destruct (String.leb (Transaction._timestamp y) (Transaction._timestamp x)) eqn:Hle.
  - constructor; [by constructor | by constructor].
  - constructor; [exact IH |].
    apply insert_desc_hd; [| exact Hhd]. by apply leb_total.
Qed.

Lemma sorted_desc_sorted (l : list Transaction.t) :
  Sorted newer_first (Account.sorted_desc l).
Proof.
  induction l as [| x l IH]; cbn; [constructor |]. by apply insert_desc_sorted.
Qed.

(** X17.  Without a limit the history is a rearrangement of the
    transaction list, nothing dropped and nothing added, in which no
    transaction stands before one with a greater timestamp. *)
Lemma history_without_limit (a : Account.t) :
  Permutation (Account.get_transaction_history a None) (Account._transactions a) /\
  Sorted newer_first (Account.get_transaction_history a None).
Proof. split; [apply sorted_desc_perm | apply sorted_desc_sorted]. Qed.

(** X18.  With a positive limit [n] the history is the first [n] entries
    of the history without limit: [min n total] entries, the newest ones. *)
Lemma history_positive_limit (a : Account.t) (n : Z) :
  (0 < n)%Z ->
  Account.get_transaction_history a (Some n)
    = take (Z.to_nat n) (Account.get_transaction_history a None) /\
  length (Account.get_transaction_history a (Some n))
    = Nat.min (Z.to_nat n) (length (Account._transactions a)).
Proof.
  intros Hn. unfold Account.get_transaction_history, Account.slice_to.
  destruct (n =? 0)%Z eqn:H0; [apply Z.eqb_eq in H0; lia |].
  destruct (n <? 0)%Z eqn:Hneg; [apply Z.ltb_lt in Hneg; lia |].
  split; [reflexivity |].
  rewrite length_take. by rewrite (Permutation_length (sorted_desc_perm _)).
Qed.

Lemma history_zero_limit_is_no_limit (a : Account.t) :
  Account.get_transaction_history a (Some 0%Z) = Account.get_transaction_history a None.
Proof. reflexivity. Qed.

(** C8.  With [limit = 0] the history is not cut to zero entries: [0] is
    falsy, so the conditional takes the branch of a missing limit and the
    whole sorted list comes back (two entries here, the later one first),
    whereas [limit = 1] gives the one most recent entry. *)
Theorem history_limit_zero_returns_everything :
  exists a,
    BankManagementService._accounts Scenario.savings_used !! "ACC000001" = Some a /\
    map Transaction._type (Account.get_transaction_history a (Some 0%Z))
      = ["withdraw"; "deposit"] /\
    length (Account.get_transaction_history a (Some 0%Z)) = 2 /\
    map Transaction._type (Account.get_transaction_history a (Some 1%Z))
      = ["withdraw"].
Proof.
  eexists. split; [vm_compute; reflexivity |].
  repeat split; vm_compute; reflexivity.
Qed.

(** ** Login *)

(** C5, as the code has it.  A failed login changes nothing and returns no
    user.  Its message is "Invalid username or password" when the username
    is unknown and when the password of an active user does not match; it is
    "Account is deactivated" when the user exists and is inactive, whatever
    the password. *)
Theorem login_failure_message
    (sha256_hexdigest : string -> string) (self self' : UserAuthService.t)
    (username password now message : string) (returned : option User.t) :
  UserAuthService.login sha256_hexdigest self username password now
    = ((false, message, returned), self') ->
  self' = self /\
  returned = None /\
  match UserAuthService._users self !! username with
  | None => message = "Invalid username or password"
  | Some user =>
      if User._is_active user
      then User.check_password sha256_hexdigest user password = false /\
           message = "Invalid username or password"
      else message = "Account is deactivated"
  end.
Proof.
  unfold UserAuthService.login.
  destruct (UserAuthService._users self !! username) as [user |].
  - destruct (User._is_active user); cbn [negb].
    + destruct (User.check_password sha256_hexdigest user password); cbn [negb].
      * intros [=].
      * intros [= <- <- <-]. done.
    + intros [= <- <- <-]. done.
  - intros [= <- <- <-]. done.
Qed.

(** The message alone tells that "bob" exists and is deactivated. *)
Lemma login_failure_message_witness :
  UserAuthService.login Scenario.toy_digest Scenario.bob_deactivated
      "bob" "secret1" "2024-03-01T14:00:00"
    = ((false, "Account is deactivated", None), Scenario.bob_deactivated) /\
  User._is_active <$> (UserAuthService._users Scenario.bob_deactivated !! "bob")
    = Some false.
Proof.
  assert (Hlogin :
    UserAuthService.login Scenario.toy_digest Scenario.bob_deactivated
        "bob" "secret1" "2024-03-01T14:00:00"
      = ((false, "Account is deactivated", None), Scenario.bob_deactivated))
    by (vm_compute; reflexivity).
  split; [exact Hlogin |].
  destruct (login_failure_message _ _ _ _ _ _ _ _ Hlogin) as (_ & _ & Hmessage).
  destruct (UserAuthService._users Scenario.bob_deactivated !! "bob") as [user |];
    [| discriminate Hmessage].
  destruct (User._is_active user) eqn:Hactive.
  - destruct Hmessage as [_ Hmessage]. discriminate Hmessage.
  - cbn. by rewrite Hactive.
Defined.

(** C5, as stated, fails.  With the right password, the deactivated user
    "bob" is told "Account is deactivated", while an unknown username is told
    "Invalid username or password": two failed attempts with two messages. *)
Lemma deactivated_login_message_differs :
  fst (UserAuthService.login Scenario.toy_digest Scenario.bob_deactivated
         "ghost" "secret1" "2024-03-01T14:00:00")
    = (false, "Invalid username or password", None) /\
  fst (UserAuthService.login Scenario.toy_digest Scenario.bob_deactivated
         "bob" "secret1" "2024-03-01T14:00:00")
    = (false, "Account is deactivated", None) /\
  ~ (forall (self : UserAuthService.t) (u1 p1 u2 p2 now m1 m2 : string)
            (r1 r2 : option User.t) (s1 s2 : UserAuthService.t),
       UserAuthService.login Scenario.toy_digest self u1 p1 now = ((false, m1, r1), s1) ->
       UserAuthService.login Scenario.toy_digest self u2 p2 now = ((false, m2, r2), s2) ->
       m1 = m2).
Proof.
  split; [vm_compute; reflexivity |]. split; [vm_compute; reflexivity |].
  intros Hsame.
  specialize (Hsame Scenario.bob_deactivated "ghost" "secret1" "bob" "secret1"
                "2024-03-01T14:00:00" "Invalid username or password"
                "Account is deactivated" None None
                Scenario.bob_deactivated Scenario.bob_deactivated).
  assert (Hdiff : "Invalid username or password" = "Account is deactivated")
    by (apply Hsame; vm_compute; reflexivity).
  discriminate Hdiff.
Qed.

(** ** The admin user *)

Lemma delete_user_admin_protected (self : UserAuthService.t) :
  UserAuthService.delete_user self "admin" = (false, self).
Proof.
  unfold UserAuthService.delete_user.
  destruct (UserAuthService._users self !! "admin"); reflexivity.
Qed.

Lemma update_user_status_existing (self : UserAuthService.t) (username : string)
    (user : User.t) (is_active : bool) :
  UserAuthService._users self !! username = Some user ->
  fst (UserAuthService.update_user_status self username is_active) = true /\
  UserAuthService._users (snd (UserAuthService.update_user_status self username is_active))
    !! username = Some (User.set_active_status is_active user).
Proof.
  intros Huser. unfold UserAuthService.update_user_status. rewrite Huser.
  split; [reflexivity |]. cbn. by rewrite lookup_alter_eq, Huser.
Qed.

Lemma values_empty {A : Type} : values (∅ : gmap string A) = [].
Proof. unfold values. by rewrite map_to_list_empty. Qed.

(** C6.  On a first run the service creates the active user "admin".
    Deleting it is refused and changes nothing.  Deactivating it is not
    refused: [update_user_status("admin", False)] answers [True] and leaves
    the admin inactive, after which the default credentials are turned away
    with "Account is deactivated". *)
Theorem admin_can_be_deactivated
    (sha256_hexdigest : string -> string) (uuid now now' : string) :
  exists self admin,
    UserAuthService.init sha256_hexdigest None uuid now = Ok self /\
    UserAuthService._users self !! "admin" = Some admin /\
    User._is_active admin = true /\
    UserAuthService.delete_user self "admin" = (false, self) /\
    fst (UserAuthService.update_user_status self "admin" false) = true /\
    User._is_active <$>
      (UserAuthService._users (snd (UserAuthService.update_user_status self "admin" false))
         !! "admin") = Some false /\
    fst (UserAuthService.login sha256_hexdigest
           (snd (UserAuthService.update_user_status self "admin" false))
           "admin" "admin123" now')
      = (false, "Account is deactivated", None).
Proof.
  eexists. eexists.
  split.
  { unfold UserAuthService.init, UserAuthService._load_users. cbn.
    unfold UserAuthService._create_default_admin. cbn.
    rewrite values_empty. cbn. reflexivity. }
  cbn [UserAuthService._users UserAuthService._save_users UserAuthService.set_users].
  split; [apply lookup_insert_eq |].
  split; [reflexivity |].
  split; [apply delete_user_admin_protected |].
  unfold UserAuthService.update_user_status.
  cbn [UserAuthService._users UserAuthService._save_users UserAuthService.set_users].
  rewrite lookup_insert_eq. cbn [fst snd].
  split; [reflexivity |].
  cbn [UserAuthService._users UserAuthService._save_users UserAuthService.set_users].
  rewrite lookup_alter_eq, lookup_insert_eq.
  split; [reflexivity |].
  unfold UserAuthService.login.
  cbn [UserAuthService._users UserAuthService._save_users UserAuthService.set_users].
  rewrite lookup_alter_eq, lookup_insert_eq. reflexivity.
Qed.

(** ** Creating a customer *)

(** C10.  [create_customer] has no failing path and looks at none of its
    arguments: whatever the name, email, phone and address, it returns the
    customer made of exactly these fields under the generated id, stored in
    the customer map under that id and written to the file; the other
    customers and the accounts are as before.  When the generated id is
    fresh, as a UUID is, the map has grown by one and every earlier customer
    is still there. *)
Theorem create_customer_total
    (self : BankManagementService.t) (name email phone address uuid now : string) :
  let r := BankManagementService.create_customer self name email phone address uuid now in
  fst r = {| Customer._id := uuid;
             Customer._name := name;
             Customer._email := email;
             Customer._phone := phone;
             Customer._address := address;
             Customer._created_date := now |} /\
  BankManagementService._customers (snd r) !! uuid = Some (fst r) /\
  (forall k, k <> uuid ->
     BankManagementService._customers (snd r) !! k
       = BankManagementService._customers self !! k) /\
  BankManagementService._accounts (snd r) = BankManagementService._accounts self /\
  BankManagementService._data_file (snd r)
    = Some (BankManagementService.document (snd r)) /\
  (BankManagementService._customers self !! uuid = None ->
     size (BankManagementService._customers (snd r))
       = S (size (BankManagementService._customers self)) /\
     BankManagementService._customers self ⊆ BankManagementService._customers (snd r)).
Proof.
  intros r. subst r. unfold BankManagementService.create_customer.
  cbn [fst snd BankManagementService._save_data BankManagementService.set_customers
       BankManagementService._customers BankManagementService._accounts
       BankManagementService._data_file].
  split; [reflexivity |].
  split; [apply lookup_insert_eq |].
  split; [intros k Hk; by rewrite lookup_insert_ne |].
  split; [reflexivity |].
  split; [reflexivity |].
  intros Hfresh. split; [by apply map_size_insert_None | by apply insert_subseteq].
Qed.

(** An instance with empty fields and with the email of an existing
    customer. *)
Lemma create_customer_total_witness :
  let r := BankManagementService.create_customer Scenario.with_alice
             "" "alice@example.com" "" "" "c-0002" "2024-03-01T09:30:00" in
  Customer._email (fst r) = "alice@example.com" /\
  Customer._name (fst r) = "" /\
  size (BankManagementService._customers (snd r)) = 2 /\
  Customer._email <$> (BankManagementService._customers (snd r) !! "c-0001")
    = Some "alice@example.com".
Proof.
  intros r.
  destruct (create_customer_total Scenario.with_alice
              "" "alice@example.com" "" "" "c-0002" "2024-03-01T09:30:00")
    as (Hc & Hstored & Hothers & _ & _ & Hfresh).
  fold r in Hc, Hstored, Hothers, Hfresh.
  destruct Hfresh as [Hsize _]; [vm_compute; reflexivity |].
  rewrite Hc. split; [reflexivity |]. split; [reflexivity |].
  split; [rewrite Hsize; vm_compute; reflexivity |].
  rewrite Hothers by discriminate. vm_compute; reflexivity.
Defined.

(** ** Serialization *)

Lemma str_or_some (s now : string) : s <> "" -> str_or (Some s) now = s.
Proof.
  intros Hs. unfold str_or.
  destruct (String.eqb s "") eqn:He; [| reflexivity].
  apply String.eqb_eq in He. contradiction.
Qed.

Lemma as_opt_str_json (key : string) (o : option string) :
  as_opt_str key (Some (opt_str_json o)) = Ok o.
Proof. destruct o; reflexivity. Qed.

Lemma transaction_round_trip (x : Transaction.t) (now : string) :
  transaction_dated x ->
  Transaction.from_dict (Transaction.to_dict x) now = Ok x.
Proof.
  intros Hx. destruct x as [i acc ty amount after description ts ref].
  unfold transaction_dated in Hx. cbn in Hx.
  unfold Transaction.from_dict, Transaction.to_dict.
  cbn -[str_or as_opt_str opt_str_json].
  rewrite as_opt_str_json. cbn -[str_or].
  unfold Transaction.init. by rewrite str_or_some.
Qed.

Lemma transactions_round_trip (l : list Transaction.t) (now : string) :
  Forall transaction_dated l ->
  mapM (fun item => Transaction.from_dict item now) (map Transaction.to_dict l) = Ok l.
Proof.
  induction 1 as [| x l Hx _ IH]; [reflexivity |].
  cbn [map mapM]. rewrite transaction_round_trip by exact Hx.
  cbn [bind]. rewrite IH. reflexivity.
Qed.

Lemma account_round_trip (a : Account.t) (now : string) :
  account_dated a ->
  Account.from_dict (Account.to_dict a) now = Ok a.
Proof.
  intros [Hdate Htxs]. destruct a as [i c ty balance status created txs].
  cbn in Hdate, Htxs.
  unfold Account.from_dict, Account.to_dict.
  cbn -[str_or mapM map Transaction.to_dict Transaction.from_dict].
  rewrite transactions_round_trip by exact Htxs.
  cbn -[str_or]. unfold Account.set_transactions, Account.init. cbn -[str_or].
  by rewrite str_or_some.
Qed.

Lemma customer_round_trip (c : Customer.t) (now : string) :
  customer_dated c ->
  Customer.from_dict (Customer.to_dict c) now = Ok c.
Proof.
  intros Hc. destruct c as [i name email phone address created].
  unfold customer_dated in Hc. cbn in Hc.
  unfold Customer.from_dict, Customer.to_dict.
  cbn -[str_or]. unfold Customer.init. by rewrite str_or_some.
Qed.

Section LoadEach.

Context {A : Type}.
Variable to_dict : A -> json.
Variable from_dict : json -> result A.
Variable key : A -> string.

Lemma load_each_entries (l : list (string * A)) (store : gmap string A) :
  (forall k x, (k, x) ∈ l -> from_dict (to_dict x) = Ok x /\ key x = k) ->
  load_each from_dict key (map to_dict l.*2) store
    = Ok (fold_left (fun m p => <[p.1 := p.2]> m) l store).
Proof.
  revert store. induction l as [| [k x] l IH]; intros store Hl; [reflexivity |].
  destruct (Hl k x) as [Hx Hk]; [by left |].
  cbn. rewrite Hx. cbn. rewrite Hk. apply IH.
  intros k' x' Hin. apply Hl. by right.
Qed.

Lemma fold_left_insert_union (l : list (string * A)) (store : gmap string A) :
  NoDup l.*1 ->
  fold_left (fun m p => <[p.1 := p.2]> m) l store = list_to_map l ∪ store.
Proof.
  revert store. induction l as [| [k x] l IH]; intros store Hnodup.
  - cbn. by rewrite (left_id_L ∅ (∪)).
  - cbn in Hnodup. apply NoDup_cons in Hnodup as [Hk Hnodup].
    cbn. rewrite IH by exact Hnodup.
    rewrite <- insert_union_l. symmetry. apply insert_union_r.
    by apply not_elem_of_list_to_map_1.
Qed.

Lemma load_each_values (store : gmap string A) :
  (forall k x, store !! k = Some x -> from_dict (to_dict x) = Ok x /\ key x = k) ->
  load_each from_dict key (map to_dict (values store)) ∅ = Ok store.
Proof.
  intros Hstore. unfold values.
  rewrite load_each_entries.
  - rewrite fold_left_insert_union by apply NoDup_fst_map_to_list.
    by rewrite (right_id_L ∅ (∪)), list_to_map_to_list.
  - intros k x Hin. apply Hstore. by apply elem_of_map_to_list.
Qed.

End LoadEach.

(** C9.  Serialization loses nothing.  In a store whose entities are kept
    under their own ids and carry their dates, [from_dict] undoes [to_dict]
    on every customer and on every account, transaction list included, and
    a service started on the file written by [_save_data] holds the same
    customers and the same accounts as the service that wrote it. *)
Theorem save_then_load_round_trip (self : BankManagementService.t) (now : string) :
  store_well_formed self ->
  (forall k c, BankManagementService._customers self !! k = Some c ->
     Customer.from_dict (Customer.to_dict c) now = Ok c) /\
  (forall k a, BankManagementService._accounts self !! k = Some a ->
     Account.from_dict (Account.to_dict a) now = Ok a /\
     mapM (fun item => Transaction.from_dict item now)
          (map Transaction.to_dict (Account._transactions a))
       = Ok (Account._transactions a)) /\
  BankManagementService.init
      (BankManagementService._data_file (BankManagementService._save_data self)) now
    = Ok (BankManagementService._save_data self).
Proof.
  intros [Hcustomers Haccounts].
  split; [| split].
  - intros k c Hc. apply customer_round_trip. by apply (Hcustomers k).
  - intros k a Ha. destruct (Haccounts k a Ha) as [_ Hdated].
    split; [by apply account_round_trip |].
    apply transactions_round_trip. apply Hdated.
  - unfold BankManagementService.init, BankManagementService._load_data.
    cbn -[load_each values].
    rewrite (load_each_values Customer.to_dict).
    + cbn -[load_each values]. rewrite (load_each_values Account.to_dict).
      * reflexivity.
      * intros k a Ha. destruct (Haccounts k a Ha) as [Hid Hdated].
        split; [by apply account_round_trip | exact Hid].
    + intros k c Hc. destruct (Hcustomers k c Hc) as [Hid Hdated].
      split; [by apply customer_round_trip | exact Hid].
Qed.

(** Checks a [Forall] over the entries of a concrete store. *)
Ltac check_entries :=
  vm_compute;
  repeat match goal with
         | |- Forall _ [] => constructor
         | |- Forall _ (_ :: _) => constructor; cbv beta iota
         | |- _ /\ _ => split
         | |- _ = _ => reflexivity
         | |- _ -> False => discriminate
         end.

Lemma store_well_formed_by_entries (self : BankManagementService.t) :
  Forall (fun p => Customer._id p.2 = p.1 /\ customer_dated p.2)
         (map_to_list (BankManagementService._customers self)) ->
  Forall (fun p => Account._id p.2 = p.1 /\ account_dated p.2)
         (map_to_list (BankManagementService._accounts self)) ->
  store_well_formed self.
Proof.
  intros Hcustomers Haccounts.
  rewrite Forall_forall in Hcustomers. rewrite Forall_forall in Haccounts.
  split.
  - intros k c Hc. apply (Hcustomers (k, c)). by apply elem_of_map_to_list.
  - intros k a Ha. apply (Haccounts (k, a)). by apply elem_of_map_to_list.
Qed.

Lemma save_then_load_round_trip_witness :
  BankManagementService.init
      (BankManagementService._data_file
         (BankManagementService._save_data (snd Scenario.transfer_A_B)))
      "2024-03-02T08:00:00"
    = Ok (BankManagementService._save_data (snd Scenario.transfer_A_B)) /\
  length (values (BankManagementService._accounts (snd Scenario.transfer_A_B))) = 2.
Proof.
  split; [| vm_compute; reflexivity].
  apply (save_then_load_round_trip (snd Scenario.transfer_A_B)).
  apply store_well_formed_by_entries; check_entries.
Defined.

(** *** Well-formedness is kept by the operations

    The store of a fresh service is well formed, and every operation keeps
    it so as long as the clock prints something. *)

Lemma fresh_bank_well_formed : store_well_formed Scenario.fresh_bank.
Proof. split; intros k x Hk; cbn in Hk; by rewrite lookup_empty in Hk. Qed.

Lemma create_customer_well_formed
    (self : BankManagementService.t) (name email phone address uuid now : string) :
  now <> "" ->
  store_well_formed self ->
  store_well_formed
    (snd (BankManagementService.create_customer self name email phone address uuid now)).
Proof.
  intros Hnow [Hcustomers Haccounts]. split; [| exact Haccounts].
  intros k c. cbn. rewrite lookup_insert_Some.
  intros [[<- <-] | [_ Hk]]; [| by apply Hcustomers].
  split; [reflexivity | exact Hnow].
Qed.

Lemma deposit_keeps_entry (k : string) (a : Account.t) (amount : Z)
    (description uuid now : string) :
  now <> "" ->
  Account._id a = k /\ account_dated a ->
  Account._id (snd (Account.deposit a amount description uuid now)) = k /\
  account_dated (snd (Account.deposit a amount description uuid now)).
Proof.
  intros Hnow [Hid [Hdate Htxs]]. unfold Account.deposit.
  destruct (amount <=? 0)%Z; [done |].
  cbn. split; [exact Hid |]. split; [exact Hdate |].
  cbn. apply Forall_app. split; [exact Htxs |]. by constructor.
Qed.

Lemma withdraw_keeps_entry (k : string) (a : Account.t) (amount : Z)
    (description uuid now : string) :
  now <> "" ->
  Account._id a = k /\ account_dated a ->
  Account._id (snd (Account.withdraw a amount description uuid now)) = k /\
  account_dated (snd (Account.withdraw a amount description uuid now)).
Proof.
  intros Hnow [Hid [Hdate Htxs]]. unfold Account.withdraw.
  destruct (amount <=? 0)%Z; [done |].
  destruct (amount >? Account._balance a)%Z; [done |].
  cbn. split; [exact Hid |]. split; [exact Hdate |].
  cbn. apply Forall_app. split; [exact Htxs |]. by constructor.
Qed.

Lemma create_account_well_formed
    (self : BankManagementService.t) (customer_id account_type : string)
    (initial_deposit : Z) (now uuid now_deposit : string) :
  now <> "" -> now_deposit <> "" ->
  store_well_formed self ->
  store_well_formed
    (snd (BankManagementService.create_account self customer_id account_type
            initial_deposit now uuid now_deposit)).
Proof.
  intros Hnow Hnow_deposit Hself. unfold BankManagementService.create_account.
  destruct (BankManagementService._customers self !! customer_id); [| exact Hself].
  set (account_id := BankManagementService.account_number _).
  set (account0 := Account.init _ _ _ _ _ _ _).
  assert (H0 : Account._id account0 = account_id /\ account_dated account0).
  { split; [reflexivity |]. split; [exact Hnow | constructor]. }
  assert (Hnew : forall account,
            Account._id account = account_id /\ account_dated account ->
            store_well_formed
              (BankManagementService._save_data
                 (BankManagementService.set_accounts self
                    (<[account_id := account]> (BankManagementService._accounts self))))).
  { intros account Haccount. destruct Hself as [Hcustomers Haccounts].
    split; [exact Hcustomers |]. intros k a. cbn. rewrite lookup_insert_Some.
    intros [[<- <-] | [_ Hk]]; [exact Haccount | by apply Haccounts]. }
  destruct (initial_deposit >? 0)%Z; [| by apply Hnew].
  pose proof (deposit_keeps_entry account_id account0 initial_deposit
                "Initial deposit" uuid now_deposit Hnow_deposit H0) as Hdeposited.
  destruct (Account.deposit account0 initial_deposit "Initial deposit" uuid now_deposit)
    as [[transaction | e] account]; [by apply Hnew | exact Hself].
Qed.

Lemma alter_keeps {A : Type} (P : string -> A -> Prop) (f : A -> A) (i : string)
    (store : gmap string A) :
  (forall k x, P k x -> P k (f x)) ->
  (forall k x, store !! k = Some x -> P k x) ->
  forall k x, alter f i store !! k = Some x -> P k x.
Proof.
  intros Hf Hstore k x. rewrite lookup_alter. case_decide as Hik.
  - subst k. destruct (store !! i) as [y |] eqn:Hy; [| done].
    cbn. intros [= <-]. apply Hf. by apply Hstore.
  - apply Hstore.
Qed.

Lemma step_well_formed (self : BankManagementService.t) (o : Ledger.op) :
  clock_prints o ->
  store_well_formed self ->
  store_well_formed (snd (Ledger.step self o)).
Proof.
  intros Hclock [Hcustomers Haccounts].
  destruct o as [account_id amount description uuid now
                | account_id amount description uuid now
                | from_id to_id amount description uuid_out now_out uuid_in now_in];
    cbn [Ledger.step snd]; cbn in Hclock.
  - split.
    + unfold BankManagementService.deposit, BankManagementService.get_account.
      destruct (BankManagementService._accounts self !! account_id); [| exact Hcustomers].
      destruct (Account.deposit _ _ _ _ _) as [[transaction | e] account1]; exact Hcustomers.
    + eapply (form_keeps (fun k a => Account._id a = k /\ account_dated a) self account_id);
        [| eapply form_accounts; reflexivity | exact Haccounts].
      intros k a. by apply deposit_keeps_entry.
  - split.
    + unfold BankManagementService.withdraw, BankManagementService.get_account.
      destruct (BankManagementService._accounts self !! account_id); [| exact Hcustomers].
      destruct (Account.withdraw _ _ _ _ _) as [[transaction | e] account1]; exact Hcustomers.
    + eapply (form_keeps (fun k a => Account._id a = k /\ account_dated a) self account_id);
        [| eapply form_accounts; reflexivity | exact Haccounts].
      intros k a. by apply withdraw_keeps_entry.
  - destruct Hclock as [Hnow_out Hnow_in].
    destruct (transfer_accounts self from_id to_id amount description
                uuid_out now_out uuid_in now_in)
      as [[_ ->] | (fa & ta & out_tx & in_tx & _ & _ & _ & Heq & Hsame & _ & _ & Hout & Hin)];
      [by split |].
    split; [rewrite Hsame; exact Hcustomers |]. rewrite Heq.
    assert (Hbalance : forall (g : Account.t -> Z) (k : string) (a : Account.t),
              Account._id a = k /\ account_dated a ->
              Account._id (Account.set_balance a (g a)) = k /\
              account_dated (Account.set_balance a (g a))) by (intros g k a Ha; exact Ha).
    assert (Happend : forall (x : Transaction.t) (k : string) (a : Account.t),
              Transaction._timestamp x <> "" ->
              Account._id a = k /\ account_dated a ->
              Account._id (Account.add_transaction x a) = k /\
              account_dated (Account.add_transaction x a)).
    { intros x k a Hx [Hid [Hdate Htxs]]. split; [exact Hid |]. split; [exact Hdate |].
      cbn. apply Forall_app. split; [exact Htxs |]. by constructor. }
    apply (alter_keeps (fun k a => Account._id a = k /\ account_dated a));
      [intros k a; apply Happend; by rewrite Hin |].
    apply (alter_keeps (fun k a => Account._id a = k /\ account_dated a));
      [intros k a; apply Happend; by rewrite Hout |].
    apply (alter_keeps (fun k a => Account._id a = k /\ account_dated a));
      [intros k a; apply (Hbalance (fun a => (Account._balance a + amount)%Z)) |].
    apply (alter_keeps (fun k a => Account._id a = k /\ account_dated a));
      [intros k a; apply (Hbalance (fun a => (Account._balance a - amount)%Z)) |].
    exact Haccounts.
Qed.

(** * Further properties of the code *)

(** ** Deposits and withdrawals *)

(** X1.  A deposit of a non-positive amount raises "Deposit amount must be
    positive" and changes nothing, neither in the account nor, through the
    deposit form, in the service. *)
Theorem deposit_rejects_non_positive
    (self : BankManagementService.t) (account_id : string) (a : Account.t)
    (amount : Z) (description uuid now : string) :
  BankManagementService._accounts self !! account_id = Some a ->
  (amount <= 0)%Z ->
  Account.deposit a amount description uuid now
    = (Raise (ValueError "Deposit amount must be positive"), a) /\
  BankManagementService.deposit self account_id amount description uuid now
    = (Raise (ValueError "Deposit amount must be positive"), self).
Proof.
  intros Hget Hamount.
  assert (Hd : Account.deposit a amount description uuid now
               = (Raise (ValueError "Deposit amount must be positive"), a)).
  { unfold Account.deposit.
    destruct (amount <=? 0)%Z eqn:Hle; [reflexivity |].
    apply Z.leb_gt in Hle. lia. }
  split; [exact Hd |].
  unfold BankManagementService.deposit, BankManagementService.get_account.
  rewrite Hget, Hd. cbn. destruct self as [cs accs file]. cbn in *.
  unfold BankManagementService.set_accounts. cbn. by rewrite insert_id.
Qed.

Lemma deposit_rejects_non_positive_witness :
  BankManagementService.deposit Scenario.savings_used "ACC000001" 0
      "Deposit" "t-0101" "2024-03-02T10:00:00"
    = (Raise (ValueError "Deposit amount must be positive"), Scenario.savings_used).
Proof.
  eapply (deposit_rejects_non_positive Scenario.savings_used "ACC000001").
  - vm_compute; reflexivity.
  - discriminate.
Defined.

(** X2.  A deposit returns exactly when the amount is positive, whatever
    the status of the account (a frozen or inactive account takes deposits
    like an active one).  It then raises the balance by the amount and
    appends one "deposit" transaction that carries the amount, the
    description and the new balance; nothing else of the account changes. *)
Theorem deposit_succeeds_iff_positive
    (a : Account.t) (amount : Z) (description uuid now : string) :
  let r := Account.deposit a amount description uuid now in
  (Ledger.is_ok (fst r) = true <-> (0 < amount)%Z) /\
  ((0 < amount)%Z ->
   let transaction :=
     {| Transaction._id := uuid;
        Transaction._account_id := Account._id a;
        Transaction._type := "deposit";
        Transaction._amount := amount;
        Transaction._balance_after := (Account._balance a + amount)%Z;
        Transaction._description := description;
        Transaction._timestamp := now;
        Transaction._reference_account := None |} in
   r = (Ok transaction,
        {| Account._id := Account._id a;
           Account._customer_id := Account._customer_id a;
           Account._type := Account._type a;
           Account._balance := (Account._balance a + amount)%Z;
           Account._status := Account._status a;
           Account._created_date := Account._created_date a;
           Account._transactions := (Account._transactions a ++ [transaction])%list |})).
Proof.
  intros r. subst r. unfold Account.deposit.
  destruct (amount <=? 0)%Z eqn:Hle.
  - apply Z.leb_le in Hle. split; [| lia]. cbn. split; [discriminate | lia].
  - apply Z.leb_gt in Hle. split; [cbn; tauto |]. intros _. reflexivity.
Qed.

Lemma deposit_succeeds_iff_positive_witness :
  Ledger.is_ok
    (fst (Account.deposit (snd (Account.set_status Scenario.account_B "frozen"))
            25 "Deposit" "t-0102" "2024-03-02T10:05:00")) = true.
Proof.
  apply (deposit_succeeds_iff_positive
           (snd (Account.set_status Scenario.account_B "frozen"))
           25 "Deposit" "t-0102" "2024-03-02T10:05:00").
  reflexivity.
Defined.

(** X3.  A withdrawal returns exactly when the amount is positive and not
    above the balance.  It then lowers the balance by the amount, which
    leaves it non-negative, and appends one "withdraw" transaction with the
    new balance; nothing else of the account changes. *)
Theorem withdraw_succeeds_iff_covered
    (a : Account.t) (amount : Z) (description uuid now : string) :
  let r := Account.withdraw a amount description uuid now in
  (Ledger.is_ok (fst r) = true <-> (0 < amount <= Account._balance a)%Z) /\
  ((0 < amount <= Account._balance a)%Z ->
   let transaction :=
     {| Transaction._id := uuid;
        Transaction._account_id := Account._id a;
        Transaction._type := "withdraw";
        Transaction._amount := amount;
        Transaction._balance_after := (Account._balance a - amount)%Z;
        Transaction._description := description;
        Transaction._timestamp := now;
        Transaction._reference_account := None |} in
   (0 <= Account._balance (snd r))%Z /\
   r = (Ok transaction,
        {| Account._id := Account._id a;
           Account._customer_id := Account._customer_id a;
           Account._type := Account._type a;
           Account._balance := (Account._balance a - amount)%Z;
           Account._status := Account._status a;
           Account._created_date := Account._created_date a;
           Account._transactions := (Account._transactions a ++ [transaction])%list |})).
Proof.
  intros r. subst r. unfold Account.withdraw.
  destruct (amount <=? 0)%Z eqn:Hle.
  { apply Z.leb_le in Hle. split; [| lia]. cbn. split; [discriminate | lia]. }
  apply Z.leb_gt in Hle.
  destruct (amount >? Account._balance a)%Z eqn:Hgt; rewrite Z.gtb_ltb in Hgt.
  - apply Z.ltb_lt in Hgt. split; [| lia]. cbn. split; [discriminate | lia].
  - apply Z.ltb_ge in Hgt. split; [cbn; split; [lia | reflexivity] |].
    intros _. cbn. split; [lia | reflexivity].
Qed.

Lemma withdraw_succeeds_iff_covered_witness :
  Ledger.is_ok
    (fst (Account.withdraw Scenario.account_A 100 "Withdrawal" "t-0103"
                           "2024-03-02T10:10:00")) = true.
Proof.
  apply (withdraw_succeeds_iff_covered Scenario.account_A 100 "Withdrawal" "t-0103"
                                       "2024-03-02T10:10:00").
  cbn. lia.
Defined.

(** X4.  A withdrawal of a non-positive amount raises "Withdrawal amount
    must be positive" before the balance is looked at, so also on an account
    whose balance is below the amount, and changes nothing. *)
Theorem withdraw_rejects_non_positive
    (self : BankManagementService.t) (account_id : string) (a : Account.t)
    (amount : Z) (description uuid now : string) :
  BankManagementService._accounts self !! account_id = Some a ->
  (amount <= 0)%Z ->
  Account.withdraw a amount description uuid now
    = (Raise (ValueError "Withdrawal amount must be positive"), a) /\
  BankManagementService.withdraw self account_id amount description uuid now
    = (Raise (ValueError "Withdrawal amount must be positive"), self).
Proof.
  intros Hget Hamount.
  assert (Hw : Account.withdraw a amount description uuid now
               = (Raise (ValueError "Withdrawal amount must be positive"), a)).
  { unfold Account.withdraw.
    destruct (amount <=? 0)%Z eqn:Hle; [reflexivity |].
    apply Z.leb_gt in Hle. lia. }
  split; [exact Hw |].
  unfold BankManagementService.withdraw, BankManagementService.get_account.
  rewrite Hget, Hw. cbn. destruct self as [cs accs file]. cbn in *.
  unfold BankManagementService.set_accounts. cbn. by rewrite insert_id.
Qed.

Lemma withdraw_rejects_non_positive_witness :
  BankManagementService.withdraw Scenario.savings_used "ACC000001" (-5)
      "Withdrawal" "t-0104" "2024-03-02T10:15:00"
    = (Raise (ValueError "Withdrawal amount must be positive"), Scenario.savings_used).
Proof.
  eapply (withdraw_rejects_non_positive Scenario.savings_used "ACC000001").
  - vm_compute; reflexivity.
  - discriminate.
Defined.

(** ** Transfers that fail *)

(** X6.  A transfer raises in two cases only, and in both the service is
    left exactly as it was: "One or both accounts not found" when one of
    the ids is unknown, and "Insufficient funds" when both are known and the
    source holds less than the amount. *)
Theorem transfer_failure_changes_nothing
    (self : BankManagementService.t) (from_id to_id : string) (amount : Z)
    (description uuid_out now_out uuid_in now_in : string) (e : exn) :
  fst (BankManagementService.transfer_funds self from_id to_id amount description
         uuid_out now_out uuid_in now_in) = Raise e ->
  snd (BankManagementService.transfer_funds self from_id to_id amount description
         uuid_out now_out uuid_in now_in) = self /\
  ((e = ValueError "One or both accounts not found" /\
    (BankManagementService._accounts self !! from_id = None \/
     BankManagementService._accounts self !! to_id = None)) \/
   (e = ValueError "Insufficient funds" /\
    exists from_account,
      BankManagementService._accounts self !! from_id = Some from_account /\
      is_Some (BankManagementService._accounts self !! to_id) /\
      (Account._balance from_account < amount)%Z)).
Proof.
  unfold BankManagementService.transfer_funds, BankManagementService.get_account.
  destruct (BankManagementService._accounts self !! from_id) as [fa |] eqn:Hfa.
  - destruct (BankManagementService._accounts self !! to_id) as [ta |] eqn:Hta.
    + destruct (Account._balance fa <? amount)%Z eqn:Hchk.
      * cbn. intros [= <-]. split; [reflexivity |]. right. split; [reflexivity |].
        exists fa. split; [reflexivity |]. split; [by eexists |]. by apply Z.ltb_lt.
      * cbn. intros [=].
    + cbn. intros [= <-]. split; [reflexivity |]. left. split; [reflexivity |]. by right.
  - cbn. intros [= <-]. split; [reflexivity |]. left. split; [reflexivity |]. by left.
Qed.

Lemma transfer_failure_changes_nothing_witness :
  BankManagementService.transfer_funds (snd Scenario.opened_B)
      "ACC000001" "ACC000002" 150 "Transfer"
      "t-0107" "2024-03-02T10:30:00" "t-0108" "2024-03-02T10:30:00.000100"
    = (Raise (ValueError "Insufficient funds"), snd Scenario.opened_B).
Proof.
  assert (Hfails :
    fst (BankManagementService.transfer_funds (snd Scenario.opened_B)
           "ACC000001" "ACC000002" 150 "Transfer"
           "t-0107" "2024-03-02T10:30:00" "t-0108" "2024-03-02T10:30:00.000100")
      = Raise (ValueError "Insufficient funds")) by (vm_compute; reflexivity).
  destruct (transfer_failure_changes_nothing _ _ _ _ _ _ _ _ _ _ Hfails) as [Hsame _].
  rewrite (surjective_pairing (BankManagementService.transfer_funds _ _ _ _ _ _ _ _ _)).
  by rewrite Hfails, Hsame.
Defined.

(** ** The ledger over sequences of operations *)

Lemma consistent_by_values (self : BankManagementService.t) :
  Forall (fun a => Ledger.balance_matches_log a = true)
         (values (BankManagementService._accounts self)) ->
  Ledger.consistent self.
Proof.
  intros Hall k a Hk. rewrite Forall_forall in Hall.
  apply Hall. by eapply elem_of_values.
Qed.

Lemma run_keeps_consistent_witness :
  Ledger.consistent (Ledger.run (snd Scenario.opened_B) Scenario.busy_day) /\
  Ledger.all_succeed (snd Scenario.opened_B) Scenario.busy_day = false.
Proof.
  split; [| vm_compute; reflexivity].
  apply run_keeps_consistent.
  - unfold Scenario.busy_day. repeat constructor; discriminate.
  - apply consistent_by_values. vm_compute. repeat constructor.
Defined.

Lemma run_keeps_non_negative_witness :
  Ledger.non_negative (Ledger.run (snd Scenario.opened_B) Scenario.busy_day).
Proof.
  apply run_keeps_non_negative.
  - unfold Scenario.busy_day. repeat constructor; discriminate.
  - apply non_negative_by_values. vm_compute. repeat constructor; discriminate.
Defined.

Lemma log_extended_refl (a : Account.t) : log_extended a a.
Proof. by repeat split. Qed.

Lemma log_extended_trans (a b c : Account.t) :
  log_extended a b -> log_extended b c -> log_extended a c.
Proof.
  intros (H1 & H2 & H3 & H4 & H5 & H6) (K1 & K2 & K3 & K4 & K5 & K6).
  repeat split; try congruence. by etrans.
Qed.

Lemma logs_extended_refl (m : gmap string Account.t) : logs_extended m m.
Proof. intros k. destruct (m !! k); [apply log_extended_refl | done]. Qed.

Lemma logs_extended_trans (m1 m2 m3 : gmap string Account.t) :
  logs_extended m1 m2 -> logs_extended m2 m3 -> logs_extended m1 m3.
Proof.
  intros H12 H23 k. specialize (H12 k). specialize (H23 k).
  destruct (m1 !! k), (m2 !! k), (m3 !! k); try done.
  by eapply log_extended_trans.
Qed.

Lemma logs_extended_alter (f : Account.t -> Account.t) (i : string)
    (m : gmap string Account.t) :
  (forall a, log_extended a (f a)) -> logs_extended m (alter f i m).
Proof.
  intros Hf k. rewrite lookup_alter. case_decide as Hik.
  - subst k. destruct (m !! i); cbn; [apply Hf | done].
  - destruct (m !! k); [apply log_extended_refl | done].
Qed.

Lemma log_extended_set_balance (a : Account.t) (b : Z) :
  log_extended a (Account.set_balance a b).
Proof. by repeat split. Qed.

Lemma log_extended_add_transaction (x : Transaction.t) (a : Account.t) :
  log_extended a (Account.add_transaction x a).
Proof. repeat split. cbn. by apply prefix_app_r. Qed.

Lemma log_extended_deposit (a : Account.t) (amount : Z) (description uuid now : string) :
  log_extended a (snd (Account.deposit a amount description uuid now)).
Proof.
  unfold Account.deposit. destruct (amount <=? 0)%Z; [apply log_extended_refl |].
  repeat split. cbn. by apply prefix_app_r.
Qed.

Lemma log_extended_withdraw (a : Account.t) (amount : Z) (description uuid now : string) :
  log_extended a (snd (Account.withdraw a amount description uuid now)).
Proof.
  unfold Account.withdraw. destruct (amount <=? 0)%Z; [apply log_extended_refl |].
  destruct (amount >? Account._balance a)%Z; [apply log_extended_refl |].
  repeat split. cbn. by apply prefix_app_r.
Qed.

Lemma logs_extended_form (self : BankManagementService.t) (account_id : string)
    (call : Account.t -> result Transaction.t * Account.t)
    (accounts' : gmap string Account.t) :
  (forall a, log_extended a (snd (call a))) ->
  accounts' = match BankManagementService._accounts self !! account_id with
              | Some account =>
                  <[account_id := snd (call account)]> (BankManagementService._accounts self)
              | None => BankManagementService._accounts self
              end ->
  logs_extended (BankManagementService._accounts self) accounts'.
Proof.
  intros Hcall ->.
  destruct (BankManagementService._accounts self !! account_id) as [account |] eqn:Hacc;
    [| apply logs_extended_refl].
  intros k. destruct (decide (account_id = k)) as [<- | Hk].
  - rewrite Hacc, lookup_insert_eq. apply Hcall.
  - rewrite lookup_insert_ne by done.
    destruct (BankManagementService._accounts self !! k); [apply log_extended_refl | done].
Qed.

Lemma step_customers (self : BankManagementService.t) (o : Ledger.op) :
  BankManagementService._customers (snd (Ledger.step self o))
    = BankManagementService._customers self.
Proof.
  destruct o as [account_id amount description uuid now
                | account_id amount description uuid now
                | from_id to_id amount description uuid_out now_out uuid_in now_in];
    cbn [Ledger.step snd].
  - unfold BankManagementService.deposit, BankManagementService.get_account.
    destruct (BankManagementService._accounts self !! account_id); [| done].
    by destruct (Account.deposit _ _ _ _ _) as [[transaction | e] account1].
  - unfold BankManagementService.withdraw, BankManagementService.get_account.
    destruct (BankManagementService._accounts self !! account_id); [| done].
    by destruct (Account.withdraw _ _ _ _ _) as [[transaction | e] account1].
  - destruct (transfer_accounts self from_id to_id amount description
                uuid_out now_out uuid_in now_in)
      as [[_ ->] | (fa & ta & out_tx & in_tx & _ & _ & _ & _ & Hsame & _)]; done.
Qed.

Lemma step_only_appends (self : BankManagementService.t) (o : Ledger.op) :
  logs_extended (BankManagementService._accounts self)
                (BankManagementService._accounts (snd (Ledger.step self o))).
Proof.
  destruct o as [account_id amount description uuid now
                | account_id amount description uuid now
                | from_id to_id amount description uuid_out now_out uuid_in now_in];
    cbn [Ledger.step snd].
  - eapply (logs_extended_form self account_id); [| eapply form_accounts; reflexivity].
    intros a. apply log_extended_deposit.
  - eapply (logs_extended_form self account_id); [| eapply form_accounts; reflexivity].
    intros a. apply log_extended_withdraw.
  - destruct (transfer_accounts self from_id to_id amount description
                uuid_out now_out uuid_in now_in)
      as [[_ ->] | (fa & ta & out_tx & in_tx & _ & _ & _ & -> & _)];
      [apply logs_extended_refl |].
    eapply logs_extended_trans;
      [| apply logs_extended_alter; intros a; apply log_extended_add_transaction].
    eapply logs_extended_trans;
      [| apply logs_extended_alter; intros a; apply log_extended_add_transaction].
    eapply logs_extended_trans;
      [| apply logs_extended_alter; intros a; apply log_extended_set_balance].
    apply logs_extended_alter. intros a. apply log_extended_set_balance.
Qed.

(** X9.  The ledger is append-only.  Whatever deposits, withdrawals and
    transfers are called, with whatever arguments and outcomes, the service
    ends with the same customers and the same account ids, and every account
    keeps its id, owner, type, status and creation date and has its earlier
    transactions, unchanged and in order, at the front of its log. *)
Theorem run_only_appends (ops : list Ledger.op) (self : BankManagementService.t) :
  BankManagementService._customers (Ledger.run self ops)
    = BankManagementService._customers self /\
  logs_extended (BankManagementService._accounts self)
                (BankManagementService._accounts (Ledger.run self ops)).
Proof.
  revert self. induction ops as [| o ops IH]; intros self.
  - split; [reflexivity | apply logs_extended_refl].
  - change (Ledger.run self (o :: ops)) with (Ledger.run (snd (Ledger.step self o)) ops).
    destruct (IH (snd (Ledger.step self o))) as [Hcustomers Hlogs].
    split; [by rewrite Hcustomers, step_customers |].
    eapply logs_extended_trans; [apply step_only_appends | exact Hlogs].
Qed.

(** ** Opening accounts *)

Lemma create_account_known
    (self : BankManagementService.t) (customer_id account_type : string)
    (initial_deposit : Z) (now uuid now_deposit : string) :
  is_Some (BankManagementService._customers self !! customer_id) ->
  let account_id :=
    BankManagementService.account_number
      (size (BankManagementService._accounts self) + 1) in
  exists a,
    BankManagementService.create_account self customer_id account_type
        initial_deposit now uuid now_deposit
      = (Ok a,
         BankManagementService._save_data
           (BankManagementService.set_accounts self
              (<[account_id := a]> (BankManagementService._accounts self)))) /\
    Account._id a = account_id /\
    Account._customer_id a = customer_id /\
    Account._type a = account_type /\
    Account._status a = "active" /\
    Account._created_date a = now /\
    ((initial_deposit <= 0)%Z ->
     Account._balance a = initial_deposit /\ Account._transactions a = []).
Proof.
  intros [c Hc] account_id. unfold BankManagementService.create_account.
  rewrite Hc. fold account_id.
  destruct (initial_deposit >? 0)%Z eqn:Hgt; rewrite Z.gtb_ltb in Hgt.
  - apply Z.ltb_lt in Hgt. unfold Account.deposit.
    destruct (initial_deposit <=? 0)%Z eqn:Hle; [apply Z.leb_le in Hle; lia |].
    eexists. split; [reflexivity |]. cbn. repeat split; lia.
  - eexists. split; [reflexivity |]. cbn. repeat split.
Qed.

(** X12.  [create_account] returns exactly when the customer id is known,
    whatever the account type and the initial deposit.  For an unknown
    customer it raises "Customer not found" and leaves the service as it
    was. *)
Theorem create_account_needs_customer
    (self : BankManagementService.t) (customer_id account_type : string)
    (initial_deposit : Z) (now uuid now_deposit : string) :
  let r := BankManagementService.create_account self customer_id account_type
             initial_deposit now uuid now_deposit in
  (Ledger.is_ok (fst r) = true
   <-> is_Some (BankManagementService._customers self !! customer_id)) /\
  (BankManagementService._customers self !! customer_id = None ->
   r = (Raise (ValueError "Customer not found"), self)).
Proof.
  intros r. subst r.
  destruct (BankManagementService._customers self !! customer_id) as [c |] eqn:Hc.
  - destruct (create_account_known self customer_id account_type initial_deposit
                now uuid now_deposit) as (a & -> & _); [by rewrite Hc |].
    split; [| discriminate]. cbn. split; [by eexists | reflexivity].
  - unfold BankManagementService.create_account. rewrite Hc. cbn.
    split; [| reflexivity]. split; [discriminate | by intros [? [=]]].
Qed.

Lemma create_account_needs_customer_witness :
  BankManagementService.create_account Scenario.with_alice "c-9999" "savings" 50
      "2024-03-02T11:00:00" "t-0109" "2024-03-02T11:00:00.000100"
    = (Raise (ValueError "Customer not found"), Scenario.with_alice).
Proof.
  apply (create_account_needs_customer Scenario.with_alice "c-9999" "savings" 50).
  vm_compute; reflexivity.
Defined.

(** X13.  [create_account] does not check the initial deposit.  With an
    initial deposit of zero or less, negative amounts included, the account
    is opened active with that amount as its balance and with an empty
    transaction log. *)
Theorem create_account_non_positive_deposit
    (self : BankManagementService.t) (customer_id account_type : string)
    (initial_deposit : Z) (now uuid now_deposit : string) :
  is_Some (BankManagementService._customers self !! customer_id) ->
  (initial_deposit <= 0)%Z ->
  fst (BankManagementService.create_account self customer_id account_type
         initial_deposit now uuid now_deposit)
    = Ok {| Account._id :=
              BankManagementService.account_number
                (size (BankManagementService._accounts self) + 1);
            Account._customer_id := customer_id;
            Account._type := account_type;
            Account._balance := initial_deposit;
            Account._status := "active";
            Account._created_date := now;
            Account._transactions := [] |}.
Proof.
  intros Hc Hdeposit.
  destruct (create_account_known self customer_id account_type initial_deposit
              now uuid now_deposit Hc)
    as (a & -> & Hid & Hcust & Hty & Hst & Hdate & Hrest).
  destruct (Hrest Hdeposit) as [Hbalance Htxs].
  destruct a as [i c ty b st d txs]. cbn in *. by subst.
Qed.

Lemma create_account_non_positive_deposit_witness :
  Account._balance <$>
    match fst (BankManagementService.create_account Scenario.with_alice "c-0001"
                 "savings" (-25) "2024-03-02T11:05:00" "t-0110"
                 "2024-03-02T11:05:00.000100") with
    | Ok a => Some a
    | Raise _ => None
    end = Some (-25)%Z.
Proof.
  rewrite (create_account_non_positive_deposit Scenario.with_alice "c-0001"
             "savings" (-25)).
  - reflexivity.
  - vm_compute. by eexists.
  - discriminate.
Defined.

(** X14.  A new account is stored under "ACC" followed by the number of
    accounts plus one, without a look at whether that id is in use.  Every
    other account and every customer stays as it was.  When the id is free
    the number of accounts grows by one; when it is taken, the account kept
    under it is replaced by the new one and the number of accounts stays the
    same. *)
Theorem create_account_store
    (self : BankManagementService.t) (customer_id account_type : string)
    (initial_deposit : Z) (now uuid now_deposit : string) :
  is_Some (BankManagementService._customers self !! customer_id) ->
  let r := BankManagementService.create_account self customer_id account_type
             initial_deposit now uuid now_deposit in
  let account_id :=
    BankManagementService.account_number
      (size (BankManagementService._accounts self) + 1) in
  exists a,
    fst r = Ok a /\
    Account._id a = account_id /\
    BankManagementService._accounts (snd r) !! account_id = Some a /\
    (forall k, k <> account_id ->
       BankManagementService._accounts (snd r) !! k
         = BankManagementService._accounts self !! k) /\
    BankManagementService._customers (snd r) = BankManagementService._customers self /\
    size (BankManagementService._accounts (snd r))
      = match BankManagementService._accounts self !! account_id with
        | Some _ => size (BankManagementService._accounts self)
        | None => S (size (BankManagementService._accounts self))
        end.
Proof.
  intros Hc r account_id. subst r.
  destruct (create_account_known self customer_id account_type initial_deposit
              now uuid now_deposit Hc) as (a & -> & Hid & _).
  fold account_id in Hid |- *.
  exists a. cbn. split; [reflexivity |]. split; [exact Hid |].
  split; [apply lookup_insert_eq |].
  split; [intros k Hk; by rewrite lookup_insert_ne |].
  split; [reflexivity |].
  rewrite map_size_insert.
  by destruct (BankManagementService._accounts self !! account_id).
Qed.

(** The id computed for the second account of [sparse_bank] is the id of
    the first: the account in the store is replaced. *)
Lemma create_account_store_witness :
  let r := BankManagementService.create_account Scenario.sparse_bank "c-0001"
             "savings" 0 "2024-03-02T11:10:00" "t-0111" "2024-03-02T11:10:00.000100" in
  size (BankManagementService._accounts (snd r)) = 1 /\
  Account._type <$> (BankManagementService._accounts Scenario.sparse_bank !! "ACC000002")
    = Some "checking" /\
  Account._type <$> (BankManagementService._accounts (snd r) !! "ACC000002")
    = Some "savings".
Proof.
  intros r.
  destruct (create_account_store Scenario.sparse_bank "c-0001" "savings" 0
              "2024-03-02T11:10:00" "t-0111" "2024-03-02T11:10:00.000100")
    as (a & Ha & Hid & Hstored & _ & _ & Hsize).
  { vm_compute. by eexists. }
  fold r in Ha, Hstored, Hsize.
  split; [rewrite Hsize; vm_compute; reflexivity |].
  split; [vm_compute; reflexivity |].
  vm_compute; reflexivity.
Defined.

(** *** Account numbers *)

Lemma pretty_N_go_head (x : N) (s : string) :
  (0 < x)%N ->
  exists c rest, pretty_N_go x s = String c rest /\ c <> "0"%char.
Proof.
  revert s. induction (N.lt_wf_0 x) as [x _ IH]; intros s Hx.
  rewrite pretty_N_go_step by done.
  destruct (decide (x < 10)%N) as [Hsmall | Hlarge].
  - rewrite N.div_small by done. rewrite pretty_N_go_0.
    rewrite N.mod_small by done.
    exists (pretty_N_char x), s. split; [reflexivity |].
    assert (x = 1 \/ x = 2 \/ x = 3 \/ x = 4 \/ x = 5 \/ x = 6
            \/ x = 7 \/ x = 8 \/ x = 9)%N as Hcases by lia.
    destruct Hcases as [-> | [-> | [-> | [-> | [-> | [-> | [-> | [-> | ->]]]]]]]];
      discriminate.
  - apply IH.
    + apply N.div_lt; lia.
    + apply N.div_str_pos. lia.
Qed.

(** A decimal numeral as [str] prints it: "0", or digits that do not start
    with a zero. *)
Lemma pretty_nat_canonical (n : nat) :
  pretty n = "0" \/ exists c rest, pretty n = String c rest /\ c <> "0"%char.
Proof.
  unfold pretty, pretty_nat, pretty, pretty_N.
  case_decide as Hn; [by left | right].
  apply pretty_N_go_head. lia.
Qed.

Lemma zeros_succ (k : nat) :
  String.concat "" (replicate (S k) "0") = String "0" (String.concat "" (replicate k "0")).
Proof. destruct k; reflexivity. Qed.

Lemma append_cons (c : ascii) (s d : string) : String c s +:+ d = String c (s +:+ d).
Proof. reflexivity. Qed.

Lemma append_empty (d : string) : "" +:+ d = d.
Proof. reflexivity. Qed.

Lemma zero_padding_inj (k1 k2 : nat) (d1 d2 : string) :
  (d1 = "0" \/ exists c rest, d1 = String c rest /\ c <> "0"%char) ->
  (d2 = "0" \/ exists c rest, d2 = String c rest /\ c <> "0"%char) ->
  String.concat "" (replicate k1 "0") +:+ d1
    = String.concat "" (replicate k2 "0") +:+ d2 ->
  d1 = d2.
Proof.
  revert k2. induction k1 as [| k1 IH]; intros [| k2] H1 H2.
  - change (String.concat "" (replicate 0 "0")) with "". by rewrite !append_empty.
  - change (String.concat "" (replicate 0 "0")) with "".
    rewrite zeros_succ, append_empty, append_cons. intros ->.
    destruct H1 as [[= Hrest] | (c & rest & [= <- <-] & Hc)]; [| done].
    destruct (String.concat "" (replicate k2 "0")) as [| c0 s0];
      [| rewrite append_cons in Hrest; discriminate].
    rewrite append_empty in Hrest. subst d2.
    destruct H2 as [[=] | (c & rest & [=] & _)].
  - change (String.concat "" (replicate 0 "0")) with "".
    rewrite zeros_succ, append_empty, append_cons. intros <-.
    destruct H2 as [[= Hrest] | (c & rest & [= <- <-] & Hc)]; [| done].
    destruct (String.concat "" (replicate k1 "0")) as [| c0 s0];
      [| rewrite append_cons in Hrest; discriminate].
    rewrite append_empty in Hrest. subst d1.
    destruct H1 as [[=] | (c & rest & [=] & _)].
  - rewrite !zeros_succ, !append_cons. intros [= Heq]. by eapply IH.
Qed.

Lemma account_number_distinct (n m : nat) :
  n <> m ->
  BankManagementService.account_number n <> BankManagementService.account_number m.
Proof.
  intros Hnm. unfold BankManagementService.account_number.
  rewrite !append_cons, !append_empty. intros [= Heq].
  unfold BankManagementService.zfill6 in Heq.
  apply zero_padding_inj in Heq; [| apply pretty_nat_canonical ..].
  by apply (inj pretty) in Heq.
Qed.

(** X15.  Different account counts give different account numbers: the
    text "ACC" followed by the count in decimal, padded with zeros to six
    digits and longer when the count needs more, determines the count. *)
Theorem account_number_inj (n m : nat) :
  BankManagementService.account_number n = BankManagementService.account_number m ->
  n = m.
Proof.
  unfold BankManagementService.account_number.
  rewrite !append_cons, !append_empty. intros [= Heq].
  unfold BankManagementService.zfill6 in Heq.
  apply zero_padding_inj in Heq; [| apply pretty_nat_canonical ..].
  by apply (inj pretty) in Heq.
Qed.

Lemma account_number_inj_witness :
  BankManagementService.account_number 7 = "ACC000007" /\
  forall m, BankManagementService.account_number m = "ACC000007" -> m = 7.
Proof.
  split; [vm_compute; reflexivity |].
  intros m Hm. symmetry. apply account_number_inj. by rewrite Hm.
Defined.

Lemma fresh_bank_numbered :
  numbered_in_sequence (BankManagementService._accounts Scenario.fresh_bank).
Proof.
  intros k. cbn. rewrite lookup_empty, map_size_empty. split.
  - by intros [? [=]].
  - intros (i & Hi & _). lia.
Qed.

Lemma logs_extended_numbered (m m' : gmap string Account.t) :
  logs_extended m m' -> numbered_in_sequence m -> numbered_in_sequence m'.
Proof.
  intros Hext Hm.
  assert (Hkeys : forall k, is_Some (m' !! k) <-> is_Some (m !! k)).
  { intros k. specialize (Hext k).
    destruct (m !! k), (m' !! k); try done; split; intros [? ?]; by eexists. }
  assert (Hsize : size m' = size m).
  { rewrite <- !size_dom. f_equal. apply set_eq. intros k.
    rewrite !elem_of_dom. apply Hkeys. }
  intros k. rewrite Hkeys, Hsize. apply Hm.
Qed.

(** X16.  In a service whose account ids are the numbers of a first,
    second, ... account, which is what an empty service stays in under its
    own operations, [create_account] computes an id that is not in use: the
    new account replaces none, the number of accounts grows by one, every
    earlier account is kept, and the ids are again in sequence. *)
Theorem create_account_in_sequence
    (self : BankManagementService.t) (customer_id account_type : string)
    (initial_deposit : Z) (now uuid now_deposit : string) :
  numbered_in_sequence (BankManagementService._accounts self) ->
  is_Some (BankManagementService._customers self !! customer_id) ->
  let r := BankManagementService.create_account self customer_id account_type
             initial_deposit now uuid now_deposit in
  BankManagementService._accounts self
    !! BankManagementService.account_number
         (size (BankManagementService._accounts self) + 1) = None /\
  size (BankManagementService._accounts (snd r))
    = S (size (BankManagementService._accounts self)) /\
  BankManagementService._accounts self ⊆ BankManagementService._accounts (snd r) /\
  numbered_in_sequence (BankManagementService._accounts (snd r)).
Proof.
  intros Hseq Hc r. subst r.
  destruct (create_account_known self customer_id account_type initial_deposit
              now uuid now_deposit Hc) as (a & -> & _).
  set (m := BankManagementService._accounts self) in *.
  set (account_id := BankManagementService.account_number (size m + 1)).
  assert (Hfresh : m !! account_id = None).
  { destruct (m !! account_id) as [old |] eqn:Hold; [| reflexivity].
    destruct (proj1 (Hseq account_id)) as (i & Hi & Heq); [by rewrite Hold |].
    exfalso. eapply (account_number_distinct (size m + 1) i); [lia | exact Heq]. }
  cbn. split; [exact Hfresh |].
  split; [by apply map_size_insert_None |].
  split; [by apply insert_subseteq |].
  intros k. rewrite lookup_insert_is_Some, (map_size_insert_None _ _ _ Hfresh).
  split.
  - intros [<- | [_ Hk]].
    + exists (size m + 1). split; [lia | reflexivity].
    + destruct (proj1 (Hseq k) Hk) as (i & Hi & ->). exists i. split; [lia | reflexivity].
  - intros (i & Hi & ->).
    destruct (decide (i = size m + 1)) as [-> | Hne]; [by left |].
    right. split; [by apply account_number_distinct; lia |].
    apply Hseq. exists i. split; [lia | reflexivity].
Qed.

Lemma create_account_in_sequence_witness :
  size (BankManagementService._accounts (snd Scenario.opened_B)) = 2 /\
  numbered_in_sequence (BankManagementService._accounts (snd Scenario.opened_B)).
Proof.
  assert (H1 : numbered_in_sequence
                 (BankManagementService._accounts (snd Scenario.opened_A))).
  { apply (create_account_in_sequence Scenario.with_alice "c-0001" "savings" 50).
    - apply fresh_bank_numbered.
    - vm_compute. by eexists. }
  destruct (create_account_in_sequence (snd Scenario.opened_A) "c-0001" "checking" 0
              "2024-03-01T09:02:00" "t-0002" "2024-03-01T09:02:00.000250" H1)
    as (_ & Hsize & _ & Hseq).
  { vm_compute. by eexists. }
  unfold Scenario.opened_B.
  split; [rewrite Hsize; vm_compute; reflexivity | exact Hseq].
Defined.

(** ** More on the transaction history *)

Lemma history_positive_limit_witness :
  map Transaction._type
      (Account.get_transaction_history
         (snd (Account.withdraw Scenario.account_A 30 "Withdrawal" "t-0112"
                                "2024-03-02T12:00:00"))
         (Some 1%Z))
    = ["withdraw"] /\
  length (Account.get_transaction_history
            (snd (Account.withdraw Scenario.account_A 30 "Withdrawal" "t-0112"
                                   "2024-03-02T12:00:00"))
            (Some 5%Z)) = 2.
Proof.
  split; [vm_compute; reflexivity |].
  destruct (history_positive_limit
              (snd (Account.withdraw Scenario.account_A 30 "Withdrawal" "t-0112"
                                     "2024-03-02T12:00:00")) 5) as [_ Hlength];
    [lia |].
  rewrite Hlength. reflexivity.
Defined.

(** X19.  A negative limit [-k] is taken as a slice bound counted from the
    end: the history loses its [k] oldest entries and keeps the other
    [total - k], or none when [k] exceeds the total. *)
Theorem history_negative_limit (a : Account.t) (n : Z) :
  (n < 0)%Z ->
  Account.get_transaction_history a (Some n)
    = take (length (Account._transactions a) - Z.to_nat (- n))
           (Account.get_transaction_history a None) /\
  length (Account.get_transaction_history a (Some n))
    = length (Account._transactions a) - Z.to_nat (- n).
Proof.
  intros Hn. unfold Account.get_transaction_history, Account.slice_to.
  destruct (n =? 0)%Z eqn:H0; [apply Z.eqb_eq in H0; lia |].
  destruct (n <? 0)%Z eqn:Hneg; [| apply Z.ltb_ge in Hneg; lia].
  rewrite (Permutation_length (sorted_desc_perm _)).
  split; [reflexivity |].
  rewrite length_take, (Permutation_length (sorted_desc_perm _)). lia.
Qed.

Lemma history_negative_limit_witness :
  map Transaction._type
      (Account.get_transaction_history
         (snd (Account.withdraw Scenario.account_A 30 "Withdrawal" "t-0112"
                                "2024-03-02T12:00:00"))
         (Some (-1)%Z))
    = ["withdraw"].
Proof.
  destruct (history_negative_limit
              (snd (Account.withdraw Scenario.account_A 30 "Withdrawal" "t-0112"
                                     "2024-03-02T12:00:00")) (-1)) as [-> _];
    [lia |].
  vm_compute; reflexivity.
Defined.

Lemma ltb_not_leb (s1 s2 : string) : String.ltb s1 s2 = true -> String.leb s2 s1 = false.
Proof.
  unfold String.ltb, String.leb. rewrite (String.compare_antisym s2 s1).
  destruct (String.compare s1 s2); cbn; congruence.
Qed.

Lemma insert_desc_oldest (x : Transaction.t) (l : list Transaction.t) :
  Forall (stamped_before x) l -> Account.insert_desc x l = (l ++ [x])%list.
Proof.
  induction 1 as [| y l Hy _ IH]; cbn; [reflexivity |].
  rewrite (ltb_not_leb _ _ Hy). by rewrite IH.
Qed.

(** X20.  When the transactions of an account were appended with strictly
    increasing timestamps, the history without limit is the transaction
    list read backwards, and with a positive limit [n] it is the last [n]
    transactions, the latest first. *)
Theorem history_of_chronological_log (a : Account.t) (n : Z) :
  StronglySorted stamped_before (Account._transactions a) ->
  Account.get_transaction_history a None = reverse (Account._transactions a) /\
  ((0 < n)%Z ->
   Account.get_transaction_history a (Some n)
     = take (Z.to_nat n) (reverse (Account._transactions a))).
Proof.
  intros Hsorted.
  assert (Hrev : Account.sorted_desc (Account._transactions a)
                 = reverse (Account._transactions a)).
  { revert Hsorted. generalize (Account._transactions a).
    induction 1 as [| x l _ IH Hx]; [reflexivity |].
    change (Account.sorted_desc (x :: l))
      with (Account.insert_desc x (Account.sorted_desc l)).
    rewrite IH, reverse_cons. apply insert_desc_oldest.
    by apply Forall_reverse. }
  split; [exact Hrev |].
  intros Hn. unfold Account.get_transaction_history, Account.slice_to.
  destruct (n =? 0)%Z eqn:H0; [apply Z.eqb_eq in H0; lia |].
  destruct (n <? 0)%Z eqn:Hneg; [apply Z.ltb_lt in Hneg; lia |].
  by rewrite Hrev.
Qed.

Lemma history_of_chronological_log_witness :
  exists a,
    BankManagementService._accounts Scenario.savings_used !! "ACC000001" = Some a /\
    Account.get_transaction_history a None = reverse (Account._transactions a) /\
    length (Account._transactions a) = 2.
Proof.
  eexists. split; [vm_compute; reflexivity |].
  split; [| reflexivity].
  apply (history_of_chronological_log _ 1).
  repeat constructor.
Defined.

(** ** Logging in and registering *)



Lemma first_conflict_none (username email : string) (users : list User.t) :
  UserAuthService.first_conflict username email users = None <->
  Forall (fun user => User._username user <> username /\ User._email user <> email) users.
Proof.
  induction users as [| user users IH]; cbn; [split; [constructor | done] |].
  destruct (String.eqb (User._username user) username) eqn:Hname.
  { apply String.eqb_eq in Hname. split; [discriminate |].
    intros Hall. inversion Hall as [| ? ? [Hne _]]. contradiction. }
  destruct (String.eqb (User._email user) email) eqn:Hemail.
  { apply String.eqb_eq in Hemail. split; [discriminate |].
    intros Hall. inversion Hall as [| ? ? [_ Hne]]. contradiction. }
  apply String.eqb_neq in Hname, Hemail. rewrite IH. split.
  - intros Hall. by constructor.
  - intros Hall. by inversion Hall.
Qed.

(** X22.  A registration succeeds exactly when the five required fields
    are non-empty, the password has at least six characters and no stored
    user has the same username or the same email.  A registration that
    fails changes nothing and returns no user. *)
Theorem register_user_outcome
    (sha256_hexdigest : string -> string) (self : UserAuthService.t)
    (username email password role full_name phone : string)
    (customer_id : option string) (uuid now : string) :
  let r := UserAuthService.register_user sha256_hexdigest self username email
             password role full_name phone customer_id uuid now in
  (fst (fst (fst r)) = true <->
   (username <> "" /\ email <> "" /\ password <> "" /\ full_name <> "" /\ phone <> "") /\
   6 <= String.length password /\
   Forall (fun user => User._username user <> username /\ User._email user <> email)
          (values (UserAuthService._users self))) /\
  (fst (fst (fst r)) = false -> snd r = self /\ snd (fst r) = None).
Proof.
  intros r. subst r. unfold UserAuthService.register_user. cbn [existsb].
  destruct (String.eqb username "") eqn:H1.
  { apply String.eqb_eq in H1. cbn. split; [split; [discriminate | tauto] | done]. }
  destruct (String.eqb email "") eqn:H2.
  { apply String.eqb_eq in H2. cbn. split; [split; [discriminate | tauto] | done]. }
  destruct (String.eqb password "") eqn:H3.
  { apply String.eqb_eq in H3. cbn. split; [split; [discriminate | tauto] | done]. }
  destruct (String.eqb full_name "") eqn:H4.
  { apply String.eqb_eq in H4. cbn. split; [split; [discriminate | tauto] | done]. }
  destruct (String.eqb phone "") eqn:H5.
  { apply String.eqb_eq in H5. cbn. split; [split; [discriminate | tauto] | done]. }
  apply String.eqb_neq in H1, H2, H3, H4, H5. cbn [orb].
  destruct (String.length password <? 6)%nat eqn:Hlen.
  { apply Nat.ltb_lt in Hlen. cbn.
    split; [split; [discriminate | intros (_ & Hlong & _); lia] | done]. }
  apply Nat.ltb_ge in Hlen.
  destruct (UserAuthService.first_conflict username email
              (values (UserAuthService._users self))) as [message |] eqn:Hconflict.
  - cbn. split; [| done]. split; [discriminate |].
    intros (_ & _ & Hall). apply first_conflict_none in Hall. congruence.
  - apply first_conflict_none in Hconflict. cbn. split; [| discriminate].
    split; [intros _ | reflexivity]. repeat split; assumption.
Qed.

Lemma register_user_outcome_witness :
  UserAuthService.register_user Scenario.toy_digest Scenario.with_bob
      "bobby" "bob@example.com" "secret2" "customer" "Bobby" "555-0103" None
      "u-0004" "2024-03-01T16:00:00"
    = ((false, "Email already exists", None), Scenario.with_bob).
Proof.
  destruct (register_user_outcome Scenario.toy_digest Scenario.with_bob
              "bobby" "bob@example.com" "secret2" "customer" "Bobby" "555-0103" None
              "u-0004" "2024-03-01T16:00:00") as [_ Hfailure].
  destruct Hfailure as [Hsame Hnone]; [vm_compute; reflexivity |].
  set (r := UserAuthService.register_user _ _ _ _ _ _ _ _ _ _ _) in *.
  assert (Hmsg : fst (fst r) = (false, "Email already exists"))
    by (vm_compute; reflexivity).
  destruct r as [[[success message] returned] self']. cbn in *.
  by injection Hmsg as -> ->; subst.
Defined.

Lemma register_user_success
    (sha256_hexdigest : string -> string) (self self' : UserAuthService.t)
    (username email password role full_name phone message : string)
    (customer_id : option string) (uuid now : string) (returned : option User.t) :
  UserAuthService.register_user sha256_hexdigest self username email password role
      full_name phone customer_id uuid now = ((true, message, returned), self') ->
  let user :=
    {| User._id := uuid;
       User._username := username;
       User._email := email;
       User._password_hash := sha256_hexdigest password;
       User._role := role;
       User._name := full_name;
       User._phone := phone;
       User._is_active := true;
       User._created_date := now;
       User._last_login := None;
       User._customer_id := customer_id |} in
  message = "User registered successfully" /\
  returned = Some user /\
  self' = UserAuthService._save_users
            (UserAuthService.set_users self
               (<[username := user]> (UserAuthService._users self))) /\
  Forall (fun u => User._username u <> username /\ User._email u <> email)
         (values (UserAuthService._users self)).
Proof.
  unfold UserAuthService.register_user.
  destruct (existsb _ _); [intros [=] |].
  destruct (String.length password <? 6)%nat; [intros [=] |].
  destruct (UserAuthService.first_conflict username email
              (values (UserAuthService._users self))) as [m |] eqn:Hconflict;
    [intros [=] |].
  intros [= <- <- <-]. apply first_conflict_none in Hconflict. by repeat split.
Qed.

(** X23.  A successful registration stores, under the username, a new
    active user with the given fields, the digest of the password and no
    last login, and returns it; every other user is as before.  In a store
    that keeps its users under their usernames the name was free: no user is
    replaced, the number of users grows by one, and the store is again of
    that kind. *)
Theorem register_user_stores
    (sha256_hexdigest : string -> string) (self self' : UserAuthService.t)
    (username email password role full_name phone message : string)
    (customer_id : option string) (uuid now : string) (returned : option User.t) :
  UserAuthService.register_user sha256_hexdigest self username email password role
      full_name phone customer_id uuid now = ((true, message, returned), self') ->
  let user :=
    {| User._id := uuid;
       User._username := username;
       User._email := email;
       User._password_hash := sha256_hexdigest password;
       User._role := role;
       User._name := full_name;
       User._phone := phone;
       User._is_active := true;
       User._created_date := now;
       User._last_login := None;
       User._customer_id := customer_id |} in
  returned = Some user /\
  UserAuthService._users self' !! username = Some user /\
  (forall k, k <> username ->
     UserAuthService._users self' !! k = UserAuthService._users self !! k) /\
  (users_well_formed self ->
   UserAuthService._users self !! username = None /\
   size (UserAuthService._users self') = S (size (UserAuthService._users self)) /\
   (now <> "" -> users_well_formed self')).
Proof.
  intros Hr user.
  destruct (register_user_success _ _ _ _ _ _ _ _ _ _ _ _ _ _ Hr)
    as (_ & Hreturned & -> & Hfree).
  fold user in Hreturned |- *. cbn.
  split; [exact Hreturned |].
  split; [apply lookup_insert_eq |].
  split; [intros k Hk; by rewrite lookup_insert_ne |].
  intros Hwf.
  assert (Hnone : UserAuthService._users self !! username = None).
  { destruct (UserAuthService._users self !! username) as [old |] eqn:Hold;
      [| reflexivity].
    rewrite Forall_forall in Hfree.
    destruct (Hfree old (elem_of_values _ _ _ Hold)) as [Hne _].
    by destruct (Hwf _ _ Hold). }
  split; [exact Hnone |].
  split; [by apply map_size_insert_None |].
  intros Hnow k u. cbn. rewrite lookup_insert_Some.
  intros [[<- <-] | [_ Hk]]; [by split | by apply Hwf].
Qed.

Lemma bootstrap_well_formed : users_well_formed Scenario.bootstrap.
Proof.
  intros k u Hk.
  assert (Hall : Forall (fun p => User._username p.2 = p.1 /\ User._created_date p.2 <> "")
                        (map_to_list (UserAuthService._users Scenario.bootstrap)))
    by check_entries.
  rewrite Forall_forall in Hall. apply (Hall (k, u)). by apply elem_of_map_to_list.
Qed.

Lemma register_user_stores_witness :
  size (UserAuthService._users Scenario.with_bob) = 2 /\
  User._role <$> (UserAuthService._users Scenario.with_bob !! "bob") = Some "employee" /\
  users_well_formed Scenario.with_bob.
Proof.
  assert (Hr :
    UserAuthService.register_user Scenario.toy_digest Scenario.bootstrap "bob"
        "bob@example.com" "secret1" "employee" "Bob Builder" "555-0101" None
        "u-0002" "2024-03-01T08:30:00"
      = ((true, "User registered successfully",
          UserAuthService._users Scenario.with_bob !! "bob"), Scenario.with_bob))
    by (vm_compute; reflexivity).
  destruct (register_user_stores _ _ _ _ _ _ _ _ _ _ _ _ _ _ Hr)
    as (_ & Hstored & _ & Hwf).
  destruct (Hwf bootstrap_well_formed) as (_ & Hsize & Hkept).
  split; [rewrite Hsize; vm_compute; reflexivity |].
  split; [by rewrite Hstored |].
  apply Hkept. discriminate.
Defined.

(** X24.  Whoever has just registered can log in: after a successful
    registration, a login with the same username and password succeeds. *)
Theorem register_then_login
    (sha256_hexdigest : string -> string) (self self' : UserAuthService.t)
    (username email password role full_name phone message : string)
    (customer_id : option string) (uuid now now' : string) (returned : option User.t) :
  UserAuthService.register_user sha256_hexdigest self username email password role
      full_name phone customer_id uuid now = ((true, message, returned), self') ->
  exists user,
    returned = Some user /\
    fst (UserAuthService.login sha256_hexdigest self' username password now')
      = (true, "Login successful", Some (User.update_last_login now' user)).
Proof.
  intros Hr.
  destruct (register_user_success _ _ _ _ _ _ _ _ _ _ _ _ _ _ Hr)
    as (_ & Hreturned & -> & _).
  eexists. split; [exact Hreturned |].
  unfold UserAuthService.login. cbn [UserAuthService._users UserAuthService._save_users
                                     UserAuthService.set_users].
  rewrite lookup_insert_eq. cbn [User._is_active negb].
  unfold User.check_password, User._hash_password. cbn [User._password_hash].
  rewrite String.eqb_refl. cbn [negb fst].
  cbn [UserAuthService._users UserAuthService.set_users].
  by rewrite lookup_alter_eq, lookup_insert_eq.
Qed.

Lemma register_then_login_witness :
  exists user,
    snd (fst Scenario.carol_registered) = Some user /\
    fst (UserAuthService.login Scenario.toy_digest (snd Scenario.carol_registered)
           "carol" "hunter22" "2024-03-01T17:00:00")
      = (true, "Login successful",
         Some (User.update_last_login "2024-03-01T17:00:00" user)).
Proof.
  apply (register_then_login Scenario.toy_digest Scenario.with_bob
           (snd Scenario.carol_registered) "carol" "carol@example.com" "hunter22"
           "customer" "Carol Client" "555-0102" "User registered successfully"
           (Some "c-0001") "u-0003" "2024-03-01T08:45:00").
  vm_compute; reflexivity.
Defined.

(** ** Managing users *)

(** X25.  [delete_user] answers [True] exactly for a stored username other
    than "admin".  When it answers [False] nothing has changed.  When it
    answers [True] the user is gone, every other user is as before, and
    every later login under that name, whatever the password, is turned away
    with "Invalid username or password" and changes nothing. *)
Theorem delete_user_outcome
    (sha256_hexdigest : string -> string) (self : UserAuthService.t)
    (username : string) :
  let r := UserAuthService.delete_user self username in
  (fst r = true <->
   is_Some (UserAuthService._users self !! username) /\ username <> "admin") /\
  (fst r = false -> snd r = self) /\
  (fst r = true ->
   UserAuthService._users (snd r) !! username = None /\
   (forall k, k <> username ->
      UserAuthService._users (snd r) !! k = UserAuthService._users self !! k) /\
   forall password now,
     UserAuthService.login sha256_hexdigest (snd r) username password now
       = ((false, "Invalid username or password", None), snd r)).
Proof.
  intros r. subst r. unfold UserAuthService.delete_user.
  destruct (UserAuthService._users self !! username) as [user |] eqn:Huser.
  - destruct (String.eqb username "admin") eqn:Hadmin; cbn [negb fst snd].
    + apply String.eqb_eq in Hadmin.
      split; [split; [discriminate | intros [_ Hne]; contradiction] |].
      split; [reflexivity | discriminate].
    + apply String.eqb_neq in Hadmin.
      split; [split; [intros _; split; [by eexists | exact Hadmin] | reflexivity] |].
      split; [discriminate |]. intros _. cbn.
      split; [apply lookup_delete_eq |].
      split; [intros k Hk; by rewrite lookup_delete_ne |].
      intros password now. unfold UserAuthService.login. cbn.
      by rewrite lookup_delete_eq.
  - cbn. split; [split; [discriminate | intros [[? [=]] _]] |].
    split; [reflexivity | discriminate].
Qed.

Lemma delete_user_outcome_witness :
  fst (UserAuthService.delete_user Scenario.with_bob "bob") = true /\
  UserAuthService.login Scenario.toy_digest
      (snd (UserAuthService.delete_user Scenario.with_bob "bob"))
      "bob" "secret1" "2024-03-01T18:00:00"
    = ((false, "Invalid username or password", None),
       snd (UserAuthService.delete_user Scenario.with_bob "bob")).
Proof.
  destruct (delete_user_outcome Scenario.toy_digest Scenario.with_bob "bob")
    as (Hiff & _ & Hgone).
  assert (Hdeleted : fst (UserAuthService.delete_user Scenario.with_bob "bob") = true).
  { apply Hiff. split; [vm_compute; by eexists | discriminate]. }
  split; [exact Hdeleted |].
  destruct (Hgone Hdeleted) as (_ & _ & Hlogin). apply Hlogin.
Defined.

(** X26.  Deactivating a stored user answers [True] and touches no other
    user; from then on every login under that name, the right password
    included, is turned away with "Account is deactivated" and changes
    nothing.  Activating the user again brings back exactly the users there
    were, if the user was active before. *)
Theorem deactivation_blocks_login
    (sha256_hexdigest : string -> string) (self : UserAuthService.t)
    (username : string) (user : User.t) :
  UserAuthService._users self !! username = Some user ->
  let r := UserAuthService.update_user_status self username false in
  fst r = true /\
  (forall k, k <> username ->
     UserAuthService._users (snd r) !! k = UserAuthService._users self !! k) /\
  (forall password now,
     UserAuthService.login sha256_hexdigest (snd r) username password now
       = ((false, "Account is deactivated", None), snd r)) /\
  (User._is_active user = true ->
   UserAuthService._users (snd (UserAuthService.update_user_status (snd r) username true))
     = UserAuthService._users self).
Proof.
  intros Huser r.
  assert (Hr : r = (true,
                    UserAuthService._save_users
                      (UserAuthService.set_users self
                         (alter (User.set_active_status false) username
                                (UserAuthService._users self))))).
  { subst r. unfold UserAuthService.update_user_status. by rewrite Huser. }
  rewrite Hr. cbn [fst snd].
  set (self1 := UserAuthService._save_users _).
  assert (Hstored : UserAuthService._users self1 !! username
                    = Some (User.set_active_status false user)).
  { subst self1. cbn. by rewrite lookup_alter_eq, Huser. }
  split; [reflexivity |].
  split; [intros k Hk; subst self1; cbn; by rewrite lookup_alter_ne |].
  split.
  - intros password now. unfold UserAuthService.login. by rewrite Hstored.
  - intros Hactive. unfold UserAuthService.update_user_status. rewrite Hstored.
    subst self1. cbn. rewrite alter_alter_eq. apply alter_id.
    intros u. rewrite Huser. intros [= <-].
    destruct user. cbn in *. by subst.
Qed.

Lemma deactivation_blocks_login_witness :
  UserAuthService.login Scenario.toy_digest Scenario.bob_deactivated "bob" "secret1"
      "2024-03-01T18:00:00"
    = ((false, "Account is deactivated", None), Scenario.bob_deactivated) /\
  UserAuthService._users
      (snd (UserAuthService.update_user_status Scenario.bob_deactivated "bob" true))
    = UserAuthService._users Scenario.with_bob.
Proof.
  destruct (UserAuthService._users Scenario.with_bob !! "bob") as [user |] eqn:Huser;
    [| vm_compute in Huser; discriminate].
  destruct (deactivation_blocks_login Scenario.toy_digest Scenario.with_bob "bob" user
              Huser) as (_ & _ & Hlogin & Hback).
  split; [apply Hlogin |].
  apply Hback. vm_compute in Huser. by injection Huser as <-.
Defined.

(** X27.  After [_create_default_admin] some stored user has the role
    "admin".  If one was there already, under whatever username, nothing is
    created and nothing changes; so running it again changes nothing. *)
Theorem default_admin_ensured
    (sha256_hexdigest : string -> string) (self : UserAuthService.t)
    (uuid now uuid' now' : string) :
  let self1 := UserAuthService._create_default_admin sha256_hexdigest self uuid now in
  admin_exists self1 = true /\
  (admin_exists self = true -> self1 = self) /\
  UserAuthService._create_default_admin sha256_hexdigest self1 uuid' now' = self1.
Proof.
  intros self1.
  assert (Hkeep : forall s u n, admin_exists s = true ->
            UserAuthService._create_default_admin sha256_hexdigest s u n = s).
  { intros s u n Hs. unfold UserAuthService._create_default_admin.
    unfold admin_exists in Hs. by rewrite Hs. }
  assert (Hexists : admin_exists self1 = true).
  { subst self1. unfold UserAuthService._create_default_admin.
    destruct (existsb _ (values (UserAuthService._users self))) eqn:Hadmin;
      cbn [negb]; [exact Hadmin |].
    unfold admin_exists. apply existsb_exists. eexists. split.
    - apply list_elem_of_In. eapply elem_of_values. cbn. apply lookup_insert_eq.
    - reflexivity. }
  split; [exact Hexists |]. split; [apply Hkeep | by apply Hkeep].
Qed.

(** ** Restarting the authentication service *)

Lemma user_round_trip (u : User.t) (now : string) :
  User._created_date u <> "" ->
  User.from_dict (User.to_dict u) now = Ok u.
Proof.
  intros Hu. destruct u as [i name email hash role full phone active created login cust].
  cbn in Hu. unfold User.from_dict, User.to_dict.
  cbn -[str_or as_opt_str opt_str_json].
  rewrite !as_opt_str_json. cbn -[str_or].
  unfold User.init. by rewrite str_or_some.
Qed.

(** X28.  Restarting loses no user.  For a store that keeps its users
    under their usernames, with their creation dates, and holds at least one
    user of role "admin", a service started on the file written by
    [_save_users] has the same users; no default admin is added. *)
Theorem users_restart_round_trip
    (sha256_hexdigest : string -> string) (self : UserAuthService.t)
    (uuid now : string) :
  users_well_formed self ->
  admin_exists self = true ->
  UserAuthService.init sha256_hexdigest
      (UserAuthService._data_file (UserAuthService._save_users self)) uuid now
    = Ok (UserAuthService._save_users self).
Proof.
  intros Hwf Hadmin.
  unfold UserAuthService.init, UserAuthService._load_users.
  cbn -[load_each values].
  rewrite (load_each_values User.to_dict).
  - cbn -[values]. unfold UserAuthService._create_default_admin.
    cbn -[values]. unfold admin_exists in Hadmin. rewrite Hadmin. cbn. reflexivity.
  - intros k u Hu. destruct (Hwf k u Hu) as [Hname Hdate].
    split; [by apply user_round_trip | exact Hname].
Qed.

Lemma users_restart_round_trip_witness :
  UserAuthService.init Scenario.toy_digest
      (UserAuthService._data_file Scenario.with_bob) "u-0009" "2024-03-02T08:00:00"
    = Ok Scenario.with_bob.
Proof.
  assert (Hsaved : UserAuthService._save_users Scenario.with_bob = Scenario.with_bob)
    by (vm_compute; reflexivity).
  rewrite <- Hsaved.
  apply users_restart_round_trip.
  - intros k u Hk.
    assert (Hall : Forall (fun p => User._username p.2 = p.1 /\ User._created_date p.2 <> "")
                          (map_to_list (UserAuthService._users
                                          (UserAuthService._save_users Scenario.with_bob))))
      by check_entries.
    rewrite Forall_forall in Hall. apply (Hall (k, u)). by apply elem_of_map_to_list.
  - vm_compute; reflexivity.
Defined.

(** ** Changing a password *)

(** X29.  The password form reports success exactly when its three fields
    are filled, the current password matches the user object of the
    session, the new password is typed twice alike and has at least six
    characters.  Otherwise neither that user object nor the service changes.
    On success the user object with the new digest is stored under its
    username, whether or not that name was still in the store, and if it is
    active a login with the new password succeeds. *)
Theorem password_change_outcome
    (sha256_hexdigest : string -> string) (self : UserAuthService.t) (user : User.t)
    (current_password new_password confirm_new_password : string) :
  let r := UserAuthService._handle_password_change sha256_hexdigest self user
             current_password new_password confirm_new_password in
  (fst (fst r) = "Password changed successfully!" <->
   (current_password <> "" /\ new_password <> "" /\ confirm_new_password <> "") /\
   User.check_password sha256_hexdigest user current_password = true /\
   new_password = confirm_new_password /\
   6 <= String.length new_password) /\
  (fst (fst r) <> "Password changed successfully!" ->
   snd (fst r) = user /\ snd r = self) /\
  (fst (fst r) = "Password changed successfully!" ->
   snd (fst r) = User.change_password sha256_hexdigest user new_password /\
   UserAuthService._users (snd r) !! User._username user
     = Some (User.change_password sha256_hexdigest user new_password) /\
   (forall k, k <> User._username user ->
      UserAuthService._users (snd r) !! k = UserAuthService._users self !! k) /\
   (User._is_active user = true ->
    forall now,
      fst (fst (fst (UserAuthService.login sha256_hexdigest (snd r)
                       (User._username user) new_password now))) = true)).
Proof.
  intros r. subst r. unfold UserAuthService._handle_password_change. cbn [existsb].
  destruct (String.eqb current_password "") eqn:H1.
  { apply String.eqb_eq in H1. cbn.
    split; [split; [discriminate | tauto] |]. split; [done | discriminate]. }
  destruct (String.eqb new_password "") eqn:H2.
  { apply String.eqb_eq in H2. cbn.
    split; [split; [discriminate | tauto] |]. split; [done | discriminate]. }
  destruct (String.eqb confirm_new_password "") eqn:H3.
  { apply String.eqb_eq in H3. cbn.
    split; [split; [discriminate | tauto] |]. split; [done | discriminate]. }
  apply String.eqb_neq in H1, H2, H3. cbn [orb].
  destruct (User.check_password sha256_hexdigest user current_password) eqn:Hcheck;
    cbn [negb].
  2:{ cbn. split; [split; [discriminate | intros (_ & [=] & _)] |].
      split; [done | discriminate]. }
  destruct (String.eqb new_password confirm_new_password) eqn:Hsame; cbn [negb].
  2:{ apply String.eqb_neq in Hsame. cbn.
      split; [split; [discriminate | intros (_ & _ & Heq & _); contradiction] |].
      split; [done | discriminate]. }
  apply String.eqb_eq in Hsame.
  destruct (String.length new_password <? 6)%nat eqn:Hlen.
  { apply Nat.ltb_lt in Hlen. cbn.
    split; [split; [discriminate | intros (_ & _ & _ & Hlong); lia] |].
    split; [done | discriminate]. }
  apply Nat.ltb_ge in Hlen. cbn [fst snd].
  split; [split; [intros _; repeat split; assumption | reflexivity] |].
  split; [intros Hne; contradiction |]. intros _.
  split; [reflexivity |]. cbn.
  split; [apply lookup_insert_eq |].
  split; [intros k Hk; by rewrite lookup_insert_ne |].
  intros Hactive now. unfold UserAuthService.login. cbn.
  rewrite lookup_insert_eq. cbn. rewrite Hactive. cbn.
  unfold User.check_password, User._hash_password. cbn.
  by rewrite String.eqb_refl.
Qed.

Lemma password_change_outcome_witness :
  fst (fst Scenario.bob_changed) = "Password changed successfully!" /\
  fst (fst (fst (UserAuthService.login Scenario.toy_digest (snd Scenario.bob_changed)
                   "bob" "s3cret-2" "2024-03-01T19:00:00"))) = true /\
  fst (fst (UserAuthService.login Scenario.toy_digest (snd Scenario.bob_changed)
              "bob" "secret1" "2024-03-01T19:00:00"))
    = (false, "Invalid username or password").
Proof.
  destruct (password_change_outcome Scenario.toy_digest Scenario.with_bob
              Scenario.bob_session "secret1" "s3cret-2" "s3cret-2")
    as (Hiff & _ & Hsuccess).
  assert (Hok : fst (fst Scenario.bob_changed) = "Password changed successfully!").
  { apply Hiff. repeat split; try discriminate; try reflexivity. cbn. lia. }
  split; [exact Hok |].
  destruct (Hsuccess Hok) as (_ & _ & _ & Hlogin).
  split; [apply (Hlogin eq_refl) |].
  vm_compute; reflexivity.
Defined.

(** ** The accounts of a customer *)

Lemma elem_of_values_inv {A : Type} (store : gmap string A) (x : A) :
  x ∈ values store -> exists k, store !! k = Some x.
Proof.
  unfold values. intros Hx. apply list_elem_of_fmap in Hx as ([k y] & -> & Hin).
  exists k. by apply elem_of_map_to_list.
Qed.

(** X30.  [get_customer_accounts] lists exactly the stored accounts whose
    owner is the given customer id.  An account that [create_account] has
    just returned is in the list of its customer and in the list of no other
    customer. *)
Theorem customer_accounts_are_the_owned_ones
    (self : BankManagementService.t) (customer_id : string) :
  (forall a,
     a ∈ BankManagementService.get_customer_accounts self customer_id <->
     exists k, BankManagementService._accounts self !! k = Some a /\
               Account._customer_id a = customer_id) /\
  (forall account_type initial_deposit now uuid now_deposit,
     is_Some (BankManagementService._customers self !! customer_id) ->
     let r := BankManagementService.create_account self customer_id account_type
                initial_deposit now uuid now_deposit in
     exists a,
       fst r = Ok a /\
       a ∈ BankManagementService.get_customer_accounts (snd r) customer_id /\
       forall other, other <> customer_id ->
         a ∉ BankManagementService.get_customer_accounts (snd r) other).
Proof.
  assert (Hlist : forall s c a,
            a ∈ BankManagementService.get_customer_accounts s c <->
            exists k, BankManagementService._accounts s !! k = Some a /\
                      Account._customer_id a = c).
  { intros s c a. unfold BankManagementService.get_customer_accounts.
    rewrite list_elem_of_In, filter_In, <- list_elem_of_In, String.eqb_eq. split.
    - intros [Hin Howner]. destruct (elem_of_values_inv _ _ Hin) as [k Hk]. by exists k.
    - intros (k & Hk & Howner). split; [by eapply elem_of_values | exact Howner]. }
  split; [apply Hlist |].
  intros account_type initial_deposit now uuid now_deposit Hc r. subst r.
  destruct (create_account_known self customer_id account_type initial_deposit
              now uuid now_deposit Hc) as (a & -> & _ & Howner & _).
  exists a. cbn [fst snd]. split; [reflexivity |]. split.
  - apply Hlist. eexists. split; [| exact Howner]. cbn. apply lookup_insert_eq.
  - intros other Hother Hin. apply Hlist in Hin as (k & _ & Howner').
    congruence.
Qed.

Lemma customer_accounts_are_the_owned_ones_witness :
  map Account._id
      (BankManagementService.get_customer_accounts (snd Scenario.opened_B) "c-0001")
    = ["ACC000001"; "ACC000002"] /\
  forall a, a ∈ BankManagementService.get_customer_accounts (snd Scenario.opened_B) "c-0001"
            -> Account._customer_id a = "c-0001".
Proof.
  split; [vm_compute; reflexivity |].
  intros a Ha.
  destruct (customer_accounts_are_the_owned_ones (snd Scenario.opened_B) "c-0001")
    as [Hlist _].
  by destruct (proj1 (Hlist a) Ha) as (k & _ & Howner).
Defined.
